(** * AML transaction monitoring and crypto analysis: a shallow embedding

    The development follows the two monitoring programs of the repository:

    - [Fiat]: [Transaction-Monitoring/Transaction-Monitoring-System.py],
      whose detection rules are one SQL query over the [transactions]
      table;
    - [Crypto]: [Transaction-Analysis-Tool/Crypto-AML-Analysis-Tool.py],
      whose detection rules are pandas and networkx calls over the batch
      read from [crypto_transactions].

    [Py] holds Python values, exceptions and results; [Pandas] and [Nx]
    model the library calls the crypto tool makes, as far as the tool uses
    them.  Crypto amounts are integers (the value of the decimal column
    in its smallest unit), fiat amounts are rationals; timestamps are
    whole seconds; stored rows carry no NULLs.  Two statements can
    fail: the alert insert, whose outcome
    is read from a schedule in the state, and the archiver's insert,
    which fails when the database has no archive table (the init scripts
    of the repository create none).  A query text that cannot be parsed
    fails as well.  Every other statement succeeds. *)

From Stdlib Require Import ZArith QArith List String Ascii Bool Lia Arith.
From Stdlib Require Import Sorted Permutation.
Import ListNotations.
Local Open Scope string_scope.
Local Open Scope list_scope.
Local Open Scope Z_scope.

(* ================================================================== *)
(** ** Python values, exceptions and results *)
(* ================================================================== *)

Module Py.

(** The exceptions the modelled calls raise.  All of them derive from
    [Exception], so an [except Exception] clause catches each.
    [DatabaseError] is what [pd.read_sql] makes of any failure of the
    statement it runs. *)
Inductive exn : Type :=
| KeyError (key : string)
| AttributeError (name : string)
| TypeError
| ValueError
| NetworkXError
| DatabaseError.

Inductive result (A : Type) : Type :=
| Ok (a : A)
| Raise (e : exn).
Arguments Ok {A} a.
Arguments Raise {A} e.

Definition bind {A B} (r : result A) (k : A -> result B) : result B :=
  match r with
  | Ok a => k a
  | Raise e => Raise e
  end.

Fixpoint mapM {A B} (f : A -> result B) (l : list A) : result (list B) :=
  match l with
  | [] => Ok []
  | x :: l' => bind (f x) (fun y => bind (mapM f l') (fun ys => Ok (y :: ys)))
  end.

Definition is_ok {A} (r : result A) : bool :=
  match r with Ok _ => true | Raise _ => false end.

(** A cell of a frame, a node of a graph, a bound SQL parameter.
    [VNull] stands for [None], [NaN] and [NaT] alike. *)
Inductive value : Type :=
| VNull
| VNum (z : Z)
| VStr (s : string)
| VTime (t : Z)
| VDelta (d : Z)
| VBool (b : bool).

Definition value_eqb (a b : value) : bool :=
  match a, b with
  | VNull, VNull => true
  | VNum x, VNum y => x =? y
  | VStr x, VStr y => String.eqb x y
  | VTime x, VTime y => x =? y
  | VDelta x, VDelta y => x =? y
  | VBool x, VBool y => Bool.eqb x y
  | _, _ => false
  end.

(** Ordering used when sorting keys; nulls go last. *)
Definition value_leb (a b : value) : bool :=
  match a, b with
  | VNum x, VNum y => x <=? y
  | VStr x, VStr y => String.leb x y
  | VTime x, VTime y => x <=? y
  | VDelta x, VDelta y => x <=? y
  | VBool x, VBool y => implb x y
  | _, VNull => true
  | _, _ => false
  end.

Fixpoint list_eqb {A} (eqb : A -> A -> bool) (l1 l2 : list A) : bool :=
  match l1, l2 with
  | [], [] => true
  | x :: l1', y :: l2' => eqb x y && list_eqb eqb l1' l2'
  | _, _ => false
  end.

Definition mem {A} (eqb : A -> A -> bool) (x : A) (l : list A) : bool :=
  existsb (eqb x) l.

Fixpoint insert_sorted {A} (leb : A -> A -> bool) (x : A) (l : list A)
  : list A :=
  match l with
  | [] => [x]
  | y :: l' => if leb x y then x :: l else y :: insert_sorted leb x l'
  end.

(** A stable insertion sort: equal keys keep their order. *)
Definition sort_by {A} (leb : A -> A -> bool) (l : list A) : list A :=
  fold_right (insert_sorted leb) [] l.

(** A boolean order read as a relation. *)
Definition holds {A} (leb : A -> A -> bool) (a b : A) : Prop :=
  leb a b = true.

(** The distinct elements, each at its first occurrence. *)
Fixpoint dedup {A} (eqb : A -> A -> bool) (l : list A) : list A :=
  match l with
  | [] => []
  | x :: l' => x :: filter (fun y => negb (eqb x y)) (dedup eqb l')
  end.

(** [a - b] on cells, as [DataFrame.diff] computes it element by
    element. *)
Definition value_sub (a b : value) : result value :=
  match a, b with
  | VNum x, VNum y => Ok (VNum (x - y))
  | VTime x, VTime y => Ok (VDelta (x - y))
  | VDelta x, VDelta y => Ok (VDelta (x - y))
  | VBool x, VBool y => Ok (VBool (xorb x y))
  | VStr _, _ | _, VStr _ => Raise TypeError
  | VNull, _ | _, VNull => Ok VNull
  | _, _ => Raise TypeError
  end.

(** [v > c] for a number [c]. *)
Definition value_gt (v : value) (c : Z) : result bool :=
  match v with
  | VNum z => Ok (c <? z)
  | VNull => Ok false
  | _ => Raise TypeError
  end.

(** [v < pd.Timedelta(d)]. *)
Definition value_lt_delta (v : value) (d : Z) : result bool :=
  match v with
  | VDelta z => Ok (z <? d)
  | VNull => Ok false
  | _ => Raise TypeError
  end.

(** [v in l] for a list of strings. *)
Definition value_in (v : value) (l : list string) : bool :=
  match v with
  | VStr s => mem String.eqb s l
  | _ => false
  end.

End Py.

(* ================================================================== *)
(** ** The pandas calls of the crypto tool *)
(* ================================================================== *)

Module Pandas.
Import Py.

(** A frame: the names of its index levels, the labels of its columns,
    and per row the index key and the cells. *)
Record DataFrame : Type := {
  index_names : list string;
  columns : list string;
  rows : list (list value * list value)
}.

(** A series: its name, the names of its index levels, and per entry the
    index key and the value. *)
Record Series : Type := {
  s_name : option string;
  s_index_names : list string;
  s_data : list (list value * value)
}.

(** [pd.DataFrame()]: no columns, no rows. *)
Definition DataFrame_empty : DataFrame :=
  {| index_names := []; columns := []; rows := [] |}.

Definition len (df : DataFrame) : Z := Z.of_nat (List.length (rows df)).

(** [df.empty] *)
Definition empty (df : DataFrame) : bool :=
  match rows df, columns df with
  | [], _ | _, [] => true
  | _, _ => false
  end.

Fixpoint find_col (c : string) (cols : list string) : option nat :=
  match cols with
  | [] => None
  | c' :: cols' =>
      if String.eqb c c' then Some O
      else option_map S (find_col c cols')
  end.

Fixpoint remove_nth {A} (i : nat) (l : list A) : list A :=
  match i, l with
  | _, [] => []
  | O, _ :: l' => l'
  | S i', x :: l' => x :: remove_nth i' l'
  end.

(** [df[c]]: the cells of column [c], or [KeyError]. *)
Definition getitem (df : DataFrame) (c : string) : result (list value) :=
  match find_col c (columns df) with
  | None => Raise (KeyError c)
  | Some i => Ok (map (fun r => nth i (snd r) VNull) (rows df))
  end.

Fixpoint select {A} (mask : list bool) (l : list A) : list A :=
  match mask, l with
  | b :: mask', x :: l' =>
      if b then x :: select mask' l' else select mask' l'
  | _, _ => []
  end.

(** [df[mask]] *)
Definition getitem_mask (df : DataFrame) (mask : list bool) : DataFrame :=
  {| index_names := index_names df;
     columns := columns df;
     rows := select mask (rows df) |}.

(** [df.set_index(c)]: column [c] becomes the index and leaves the
    columns. *)
Definition set_index (df : DataFrame) (c : string) : result DataFrame :=
  match find_col c (columns df) with
  | None => Raise (KeyError c)
  | Some i =>
      Ok {| index_names := [c];
            columns := remove_nth i (columns df);
            rows := map (fun r => ([nth i (snd r) VNull],
                                   remove_nth i (snd r))) (rows df) |}
  end.

Definition key_leb (k1 k2 : list value) : bool :=
  match k1, k2 with
  | a :: _, b :: _ => value_leb a b
  | _, _ => true
  end.

(** [df.sort_index()] *)
Definition sort_index (df : DataFrame) : DataFrame :=
  {| index_names := index_names df;
     columns := columns df;
     rows := sort_by (fun r1 r2 => key_leb (fst r1) (fst r2)) (rows df) |}.

Fixpoint zipM {A B C} (f : A -> B -> result C) (l1 : list A) (l2 : list B)
  : result (list C) :=
  match l1, l2 with
  | x :: l1', y :: l2' =>
      bind (f x y) (fun z => bind (zipM f l1' l2') (fun zs => Ok (z :: zs)))
  | _, _ => Ok []
  end.

Fixpoint diff_rows (prev : list value) (rs : list (list value * list value))
  : result (list (list value * list value)) :=
  match rs with
  | [] => Ok []
  | r :: rs' =>
      bind (zipM value_sub (snd r) prev) (fun d =>
      bind (diff_rows (snd r) rs') (fun ds => Ok ((fst r, d) :: ds)))
  end.

(** [df.diff()]: every column is differenced against the previous row;
    the first row has no predecessor. *)
Definition diff (df : DataFrame) : result DataFrame :=
  match rows df with
  | [] => Ok df
  | r :: rs =>
      bind (diff_rows (snd r) rs) (fun ds =>
      Ok {| index_names := index_names df;
            columns := columns df;
            rows := (fst r, map (fun _ => VNull) (snd r)) :: ds |})
  end.

(** [df.name]: attribute access reaches columns only, never the
    index. *)
Definition getattr (df : DataFrame) (name : string) : result Series :=
  match find_col name (columns df) with
  | None => Raise (AttributeError name)
  | Some i =>
      Ok {| s_name := Some name;
            s_index_names := index_names df;
            s_data := map (fun r => (fst r, nth i (snd r) VNull)) (rows df) |}
  end.

(** [s < pd.Timedelta(d)] *)
Definition series_lt_delta (s : Series) (d : Z) : result Series :=
  bind (mapM (fun e => bind (value_lt_delta (snd e) d)
                         (fun b => Ok (fst e, VBool b))) (s_data s))
       (fun data =>
          Ok {| s_name := s_name s;
                s_index_names := s_index_names s;
                s_data := data |}).

(** [df.groupby(by)]: one frame per key of column [by], keys sorted,
    rows of a group in frame order; null keys are dropped. *)
Definition groupby (df : DataFrame) (by_ : string)
  : result (list (value * DataFrame)) :=
  match find_col by_ (columns df) with
  | None => Raise (KeyError by_)
  | Some i =>
      let key r := nth i (snd r) VNull in
      let keys :=
        sort_by value_leb
          (dedup value_eqb
             (filter (fun k => negb (value_eqb k VNull))
                (map key (rows df)))) in
      Ok (map (fun k =>
                 (k, {| index_names := index_names df;
                        columns := columns df;
                        rows := filter (fun r => value_eqb (key r) k)
                                  (rows df) |}))
              keys)
  end.

(** What a pandas call may hand back: a frame or a series. *)
Inductive NDFrame : Type :=
| Frame (df : DataFrame)
| Ser (s : Series).

(** [groupby(by).apply(f)] for an [f] that returns a series.  [f] is
    called on every group in key order and its first exception is the
    exception of the call; the series are stacked under the group key.
    Without any group [f] is not called and a frame without rows comes
    back, indexed by the group key and with the columns of [df]. *)
Definition groupby_apply (df : DataFrame) (by_ : string)
    (f : DataFrame -> result Series) : result NDFrame :=
  bind (groupby df by_) (fun groups =>
  bind (mapM (fun g => bind (f (snd g)) (fun s => Ok (fst g, s))) groups)
       (fun parts =>
          match parts with
          | [] => Ok (Frame {| index_names := [by_];
                               columns := columns df;
                               rows := [] |})
          | p :: _ =>
              Ok (Ser {| s_name := s_name (snd p);
                         s_index_names := by_ :: s_index_names (snd p);
                         s_data :=
                           flat_map
                             (fun q => map (fun e => (fst q :: fst e, snd e))
                                           (s_data (snd q)))
                             parts |})
          end)).

(** [reset_index()] of a series: the index levels become columns in
    front of the values; a level named as the series cannot be
    inserted. *)
Definition Series_reset_index (s : Series) : result DataFrame :=
  let name := match s_name s with Some n => n | None => "0" end in
  if mem String.eqb name (s_index_names s) then Raise ValueError
  else
    Ok {| index_names := [];
          columns := s_index_names s ++ [name];
          rows := map (fun e => ([], fst e ++ [snd e])) (s_data s) |}.

(** [reset_index()] of a frame: the index levels become the first
    columns; an unnamed index becomes the column [index]. *)
Definition DataFrame_reset_index (df : DataFrame) : result DataFrame :=
  let names := match index_names df with [] => ["index"] | l => l end in
  if existsb (fun n => mem String.eqb n (columns df)) names
  then Raise ValueError
  else
    Ok {| index_names := [];
          columns := names ++ columns df;
          rows := map (fun r => ([], fst r ++ snd r)) (rows df) |}.

Definition reset_index (x : NDFrame) : result DataFrame :=
  match x with
  | Frame df => DataFrame_reset_index df
  | Ser s => Series_reset_index s
  end.

(** [df.query('c == True')] *)
Definition query_true (df : DataFrame) (c : string) : result DataFrame :=
  bind (getitem df c) (fun col =>
  Ok (getitem_mask df (map (fun v => value_eqb v (VBool true)) col))).

(** The value of column [c] in a row laid out by [cols]; a column the row
    does not have reads as null. *)
Definition cell (cols : list string) (r : list value) (c : string) : value :=
  match find_col c cols with
  | Some i => nth i r VNull
  | None => VNull
  end.

Definition union_columns (dfs : list DataFrame) : list string :=
  dedup String.eqb (flat_map columns dfs).

(** [pd.concat(dfs)]: the rows of all frames under the union of their
    columns, missing cells null. *)
Definition concat (dfs : list DataFrame) : DataFrame :=
  let cols := union_columns dfs in
  {| index_names := [];
     columns := cols;
     rows := flat_map (fun df =>
                         map (fun r => (fst r,
                                        map (cell (columns df) (snd r)) cols))
                             (rows df))
                      dfs |}.

Fixpoint drop_dup_rows (seen : list (list value))
    (rs : list (list value * list value)) : list (list value * list value) :=
  match rs with
  | [] => []
  | r :: rs' =>
      if mem (list_eqb value_eqb) (snd r) seen then drop_dup_rows seen rs'
      else r :: drop_dup_rows (snd r :: seen) rs'
  end.

(** [df.drop_duplicates()]: the first of the rows equal on every column
    is kept. *)
Definition drop_duplicates (df : DataFrame) : DataFrame :=
  {| index_names := index_names df;
     columns := columns df;
     rows := drop_dup_rows [] (rows df) |}.

(** A row as [iterrows] yields it: a series labelled by the columns. *)
Definition Row : Type := list (string * value).

Definition iterrows (df : DataFrame) : list Row :=
  map (fun r => combine (columns df) (snd r)) (rows df).

Fixpoint row_getitem (r : Row) (c : string) : result value :=
  match r with
  | [] => Raise (KeyError c)
  | (c', v) :: r' => if String.eqb c c' then Ok v else row_getitem r' c
  end.

End Pandas.

(* ================================================================== *)
(** ** The networkx calls of the crypto tool *)
(* ================================================================== *)

Module Nx.
Import Py Pandas.

(** The data dictionary of an edge. *)
Definition attrs : Type := list (string * value).

(** An undirected simple graph ([nx.Graph]) as its adjacency: every node
    with its neighbours and the edge data, both in insertion order. *)
Definition Graph : Type := list (value * list (value * attrs)).

Definition nodes (g : Graph) : list value := map fst g.

Definition has_node (g : Graph) (n : value) : bool :=
  mem value_eqb n (nodes g).

Definition add_node (g : Graph) (n : value) : Graph :=
  if has_node g n then g else g ++ [(n, [])].

Fixpoint adj_get (nbrs : list (value * attrs)) (v : value) : option attrs :=
  match nbrs with
  | [] => None
  | (w, d) :: nbrs' => if value_eqb v w then Some d else adj_get nbrs' v
  end.

Fixpoint adj_set (nbrs : list (value * attrs)) (v : value) (d : attrs)
  : list (value * attrs) :=
  match nbrs with
  | [] => [(v, d)]
  | (w, d') :: nbrs' =>
      if value_eqb v w then (w, d) :: nbrs' else (w, d') :: adj_set nbrs' v d
  end.

Definition neighbors (g : Graph) (n : value) : list (value * attrs) :=
  match find (fun e => value_eqb n (fst e)) g with
  | Some e => snd e
  | None => []
  end.

(** [dict.update] *)
Definition attrs_update (old new : attrs) : attrs :=
  filter (fun kv => negb (mem String.eqb (fst kv) (map fst new))) old ++ new.

Definition attrs_get (d : attrs) (k : string) : value :=
  match find (fun kv => String.eqb k (fst kv)) d with
  | Some kv => snd kv
  | None => VNull
  end.

(** [G.add_edge(u, v, **d)]: both nodes are added when new, an existing
    edge keeps its place and has its data updated.  [None] is refused
    as a node. *)
Definition add_edge (g : Graph) (u v : value) (d : attrs) : result Graph :=
  if value_eqb u VNull || value_eqb v VNull then Raise ValueError
  else
    let g1 := add_node (add_node g u) v in
    let datadict :=
      attrs_update (match adj_get (neighbors g1 u) v with
                    | Some old => old
                    | None => []
                    end) d in
    let set_ a b (g : Graph) : Graph :=
      map (fun e => if value_eqb a (fst e)
                    then (fst e, adj_set (snd e) b datadict) else e) g in
    Ok (set_ v u (set_ u v g1)).

Fixpoint add_edges (g : Graph) (es : list (value * value * attrs))
  : result Graph :=
  match es with
  | [] => Ok g
  | (u, v, d) :: es' => bind (add_edge g u v d) (fun g' => add_edges g' es')
  end.

(** [nx.from_pandas_edgelist(df, source, target, edge_attr)] with a list
    of attribute columns: a missing attribute column is reported as
    [NetworkXError], a missing end-point column as [KeyError]. *)
Definition from_pandas_edgelist (df : DataFrame) (source target : string)
    (edge_attr : list string) : result Graph :=
  match mapM (getitem df) edge_attr with
  | Raise _ => Raise NetworkXError
  | Ok attr_cols =>
      bind (getitem df source) (fun src =>
      bind (getitem df target) (fun tgt =>
      let data :=
        map (fun j => combine edge_attr
                        (map (fun col => nth j col VNull) attr_cols))
            (seq 0 (List.length src)) in
      add_edges [] (combine (combine src tgt) data)))
  end.

(** The nodes reachable from [seen], found breadth first; [fuel] rounds
    suffice when [fuel] is the number of nodes. *)
Fixpoint bfs (fuel : nat) (g : Graph) (seen : list value) : list value :=
  match fuel with
  | O => seen
  | S fuel' =>
      let next :=
        filter (fun n =>
                  negb (mem value_eqb n seen) &&
                  existsb (fun s => mem value_eqb n (map fst (neighbors g s)))
                          seen)
               (nodes g) in
      match next with
      | [] => seen
      | _ => bfs fuel' g (seen ++ next)
      end
  end.

Fixpoint components_from (g : Graph) (todo seen : list value)
  : list (list value) :=
  match todo with
  | [] => []
  | v :: todo' =>
      if mem value_eqb v seen then components_from g todo' seen
      else
        let c := bfs (List.length g) g [v] in
        c :: components_from g todo' (seen ++ c)
  end.

(** [nx.connected_components(G)]: one node set per component, in the
    order of the first node of each. *)
Definition connected_components (g : Graph) : list (list value) :=
  components_from g (nodes g) [].

Fixpoint edges_from (sub : list value) (g : Graph) (seen : list value)
  : list (value * value * attrs) :=
  match g with
  | [] => []
  | (n, nbrs) :: g' =>
      if mem value_eqb n sub then
        map (fun e => (n, fst e, snd e))
            (filter (fun e => mem value_eqb (fst e) sub &&
                              negb (mem value_eqb (fst e) seen)) nbrs)
        ++ edges_from sub g' (n :: seen)
      else edges_from sub g' seen
  end.

(** [G.subgraph(cluster).edges(data=True)]: every edge between two nodes
    of the cluster once, with its data.  The order of the edges and
    which end comes first follow the node order of [G]; networkx leaves
    both to the iteration order of the cluster set. *)
Definition subgraph_edges (g : Graph) (cluster : list value)
  : list (value * value * attrs) :=
  edges_from cluster g [].

(** An edge data dictionary that carries [value_usd] and nothing
    else. *)
Definition only_value_usd (d : attrs) : Prop :=
  forall kv, In kv d -> fst kv = "value_usd".

(** A graph all of whose edges carry [value_usd] only. *)
Definition edges_only_value_usd (g : Graph) : Prop :=
  forall e, In e g -> forall nb, In nb (snd e) -> only_value_usd (snd nb).

End Nx.

(* ================================================================== *)
(** ** Crypto-AML-Analysis-Tool.py *)
(* ================================================================== *)

Module Crypto.
Import Py Pandas.

(** [config.py] *)
Record Config : Type := {
  THRESHOLD_VALUE_USD : Z;
  HIGH_RISK_ADDRESSES : list string;
  FREQUENT_TXN_LIMIT : Z;
  GRAPH_ANALYSIS_LIMIT : Z;
  ARCHIVE_AGE_DAYS : Z
}.

Definition config : Config := {|
  THRESHOLD_VALUE_USD := 10000;
  HIGH_RISK_ADDRESSES := ["1DkqkW9i9szEdSa7ZrM4q2eA6kWE2w2DSm";
                          "1HB5XMLmzFVj8ALj6mfBsbifRoD4miY36v"];
  FREQUENT_TXN_LIMIT := 5;
  GRAPH_ANALYSIS_LIMIT := 100;
  ARCHIVE_AGE_DAYS := 30
|}.

(** A row of [crypto_transactions] (and of its archive).  The tables
    are taken with the columns the statements of the tool name; the
    schema script of the repository creates neither [processed] nor the
    archive table. *)
Record Txn : Type := {
  transaction_id : string;
  from_address : string;
  to_address : string;
  value_usd : Z;
  transaction_fee : Z;
  transaction_date : Z;
  blockchain : string;
  processed : bool
}.

(** A row of [crypto_alerts]; [alert_id] and [alert_date] are filled in
    by the table. *)
Record Alert : Type := {
  alert_transaction_id : value;
  alert_type : string;
  risk_score : Z
}.

(** What a run leaves behind besides the tables: log lines and the
    storage statements that were committed. *)
Inductive event : Type :=
| LogInfo (msg : string)
| LogWarning (msg : string) (tid : value)
| LogError (msg : string)
| AlertLogged (a : Alert)
| AlertFailed (tid : value)
| MarkedProcessed (ids : list value).

(** The database behind [conn], the outcomes of the alert inserts still
    to come ([true]: the insert raises), and the events so far.
    [archive_exists] tells whether the database has the table
    [crypto_transactions_archive]; without it the table has no rows and
    every statement that names it raises. *)
Record State : Type := {
  crypto_transactions : list Txn;
  crypto_alerts : list Alert;
  crypto_transactions_archive : list Txn;
  archive_exists : bool;
  insert_faults : list bool;
  trace : list event
}.

(** Statements run against the state; an exception leaves the state as
    it was at the raise. *)
Definition M (A : Type) : Type := State -> result A * State.

Definition ret {A} (a : A) : M A := fun st => (Ok a, st).

Definition bindM {A B} (c : M A) (k : A -> M B) : M B :=
  fun st =>
    match c st with
    | (Ok a, st') => k a st'
    | (Raise e, st') => (Raise e, st')
    end.

Definition lift {A} (r : result A) : M A := fun st => (r, st).

Notation "x <- c ;; k" := (bindM c (fun x => k))
  (at level 61, c at next level, right associativity).
Notation "c ;; k" := (bindM c (fun _ => k))
  (at level 61, right associativity).

Definition emit (e : event) : M unit :=
  fun st =>
    (Ok tt, {| crypto_transactions := crypto_transactions st;
               crypto_alerts := crypto_alerts st;
               crypto_transactions_archive := crypto_transactions_archive st;
               archive_exists := archive_exists st;
               insert_faults := insert_faults st;
               trace := trace st ++ [e] |}).

(** [for x in l: body(x)] *)
Fixpoint for_each {A} (l : list A) (body : A -> M unit) : M unit :=
  match l with
  | [] => ret tt
  | x :: l' => body x ;; for_each l' body
  end.

Definition when (b : bool) (c : M unit) : M unit :=
  if b then c else ret tt.

Definition txn_columns : list string :=
  ["transaction_id"; "from_address"; "to_address"; "value_usd";
   "transaction_fee"; "transaction_date"; "blockchain"; "processed"].

Definition txn_cells (t : Txn) : list value :=
  [VStr (transaction_id t); VStr (from_address t); VStr (to_address t);
   VNum (value_usd t); VNum (transaction_fee t); VTime (transaction_date t);
   VStr (blockchain t); VNum (if processed t then 1 else 0)].

Fixpoint range_index {A} (i : Z) (l : list (list A))
  : list (list value * list A) :=
  match l with
  | [] => []
  | r :: l' => ([VNum i], r) :: range_index (i + 1) l'
  end.

(** The frame [pd.read_sql] builds from the selected rows. *)
Definition frame_of (l : list Txn) : DataFrame :=
  {| index_names := [];
     columns := txn_columns;
     rows := range_index 0 (map txn_cells l) |}.

(** [SELECT * FROM crypto_transactions WHERE processed = 0] *)
Definition unprocessed (st : State) : list Txn :=
  filter (fun t => negb (processed t)) (crypto_transactions st).

Definition value_le (v : value) (c : Z) : result bool :=
  match v with
  | VNum z => Ok (z <=? c)
  | VNull => Ok false
  | _ => Raise TypeError
  end.

Definition isnull (v : value) : bool := value_eqb v VNull.

(** The checks of [validate_transaction_data] on one row. *)
Definition validate_row (row : Row) : M unit :=
  v <- lift (row_getitem row "value_usd") ;;
  d <- lift (row_getitem row "transaction_date") ;;
  f <- lift (row_getitem row "from_address") ;;
  t <- lift (row_getitem row "to_address") ;;
  tid <- lift (row_getitem row "transaction_id") ;;
  nonpos <- lift (value_le v 0) ;;
  let missing := isnull d || isnull v || isnull f || isnull t in
  when nonpos (emit (LogWarning "Invalid transaction value" tid)) ;;
  when missing (emit (LogWarning "Missing data in transaction ID" tid)).

(** [validate_transaction_data]: a warning per defect of a row; the rows
    stay in the batch.  The rows are visited once, which selects the
    same rows in the same order as the mask of the source. *)
Definition validate_transaction_data (transactions : DataFrame) : M unit :=
  for_each (iterrows transactions) validate_row.

(** [transactions[transactions['value_usd'] > THRESHOLD_VALUE_USD]] *)
Definition flagged_threshold (cfg : Config) (transactions : DataFrame)
  : result DataFrame :=
  bind (getitem transactions "value_usd") (fun v =>
  bind (mapM (fun x => value_gt x (THRESHOLD_VALUE_USD cfg)) v) (fun mask =>
  Ok (getitem_mask transactions mask))).

(** [transactions[from_address.isin(...) | to_address.isin(...)]] *)
Definition flagged_high_risk (cfg : Config) (transactions : DataFrame)
  : result DataFrame :=
  bind (getitem transactions "from_address") (fun f =>
  bind (getitem transactions "to_address") (fun t =>
  Ok (getitem_mask transactions
        (map (fun p => value_in (fst p) (HIGH_RISK_ADDRESSES cfg) ||
                       value_in (snd p) (HIGH_RISK_ADDRESSES cfg))
             (combine f t))))).

(** The lambda of [detect_frequent_transactions], applied to the rows
    of one [from_address]:
    [x.set_index('transaction_date').sort_index().diff().transaction_date
     < pd.Timedelta(minutes=10)]. *)
Definition gap_below_ten_minutes (x : DataFrame) : result Series :=
  bind (set_index x "transaction_date") (fun x1 =>
  bind (diff (sort_index x1)) (fun x2 =>
  bind (getattr x2 "transaction_date") (fun s =>
  series_lt_delta s (10 * 60)))).

(** [detect_frequent_transactions] *)
Definition detect_frequent_transactions (transactions : DataFrame)
  : M DataFrame :=
  stacked <- lift (groupby_apply transactions "from_address"
                     gap_below_ten_minutes) ;;
  flat <- lift (reset_index stacked) ;;
  flagged_frequent <- lift (query_true flat "transaction_date") ;;
  emit (LogInfo "Detected frequent transactions.") ;;
  ret flagged_frequent.

(** [detect_complex_patterns] *)
Definition detect_complex_patterns (cfg : Config) (transactions : DataFrame)
  : M DataFrame :=
  if GRAPH_ANALYSIS_LIMIT cfg <? len transactions then
    emit (LogInfo
      "Skipping complex pattern detection due to large transaction set.") ;;
    ret DataFrame_empty
  else
    G <- lift (Nx.from_pandas_edgelist transactions
                 "from_address" "to_address" ["value_usd"]) ;;
    let clusters := Nx.connected_components G in
    let flagged_transactions :=
      flat_map (fun cluster =>
                  if FREQUENT_TXN_LIMIT cfg <? Z.of_nat (List.length cluster)
                  then Nx.subgraph_edges G cluster
                  else [])
               clusters in
    let flagged_df :=
      {| index_names := [];
         columns := ["from_address"; "to_address"; "transaction_id"];
         rows := range_index 0
                   (map (fun e =>
                           match e with
                           | (u, v, data) =>
                               [u; v; Nx.attrs_get data "transaction_id"]
                           end)
                        flagged_transactions) |} in
    emit (LogInfo "Detected complex pattern transactions.") ;;
    ret flagged_df.

(** [calculate_risk_score] *)
Definition calculate_risk_score (cfg : Config) (transaction : Row) : M Z :=
  let score := 0 in
  v <- lift (row_getitem transaction "value_usd") ;;
  above <- lift (value_gt v (THRESHOLD_VALUE_USD cfg)) ;;
  let score := if above then score + 30 else score in
  f <- lift (row_getitem transaction "from_address") ;;
  risky <- (if value_in f (HIGH_RISK_ADDRESSES cfg) then ret true
            else t <- lift (row_getitem transaction "to_address") ;;
                 ret (value_in t (HIGH_RISK_ADDRESSES cfg))) ;;
  let score := if risky then score + 50 else score in
  tid <- lift (row_getitem transaction "transaction_id") ;;
  complex <- detect_complex_patterns cfg DataFrame_empty ;;
  ids <- lift (getitem complex "transaction_id") ;;
  let score := if mem value_eqb tid ids then score + 20 else score in
  ret (Z.min score 100).

(** [log_alert]: the insert and its commit; a failed insert is logged
    and swallowed. *)
Definition log_alert (transaction_id : value) (risk_score : Z) : M unit :=
  fun st =>
    let a := {| alert_transaction_id := transaction_id;
                alert_type := if 70 <=? risk_score then "High Risk"
                              else "Moderate Risk";
                risk_score := risk_score |} in
    match insert_faults st with
    | true :: rest =>
        (Ok tt, {| crypto_transactions := crypto_transactions st;
                   crypto_alerts := crypto_alerts st;
                   crypto_transactions_archive :=
                     crypto_transactions_archive st;
                   archive_exists := archive_exists st;
                   insert_faults := rest;
                   trace := trace st ++ [AlertFailed transaction_id] |})
    | faults =>
        (Ok tt, {| crypto_transactions := crypto_transactions st;
                   crypto_alerts := crypto_alerts st ++ [a];
                   crypto_transactions_archive :=
                     crypto_transactions_archive st;
                   archive_exists := archive_exists st;
                   insert_faults := tl faults;
                   trace := trace st ++ [AlertLogged a] |})
    end.

Definition set_processed (t : Txn) : Txn :=
  {| transaction_id := transaction_id t;
     from_address := from_address t;
     to_address := to_address t;
     value_usd := value_usd t;
     transaction_fee := transaction_fee t;
     transaction_date := transaction_date t;
     blockchain := blockchain t;
     processed := true |}.

(** [mark_transactions_processed]: one UPDATE per id, in one
    transaction. *)
Definition mark_transactions_processed (transaction_ids : list value)
  : M unit :=
  fun st =>
    (Ok tt,
     {| crypto_transactions :=
          map (fun t => if mem value_eqb (VStr (transaction_id t))
                             transaction_ids
                        then set_processed t else t)
              (crypto_transactions st);
        crypto_alerts := crypto_alerts st;
        crypto_transactions_archive := crypto_transactions_archive st;
        archive_exists := archive_exists st;
        insert_faults := insert_faults st;
        trace := trace st ++ [MarkedProcessed transaction_ids] |}).

(** [try: body] with [except Exception as e: logging.error(msg)]: the
    state is the one the body had reached when it raised. *)
Definition try_except (body : M unit) (msg : string) (st : State) : State :=
  match body st with
  | (Ok _, st') => st'
  | (Raise _, st') => snd (emit (LogError msg) st')
  end.

Section Pass.

(** The pass with its two batch detectors and its scorer as
    parameters; [analyze_transactions] below is the pass of the
    source. *)
Variable detect_frequent : DataFrame -> M DataFrame.
Variable detect_complex : DataFrame -> M DataFrame.
Variable risk_score_of : Row -> M Z.

(** Lines 69 and 70: score one flagged row and log its alert. *)
Definition alert_row (row : Row) : M unit :=
  risk <- risk_score_of row ;;
  tid <- lift (row_getitem row "transaction_id") ;;
  log_alert tid risk.

(** Line 68: the loop over the flagged rows. *)
Definition alert_flagged (all_flagged : DataFrame) : M unit :=
  for_each (iterrows all_flagged) alert_row.

(** Lines 58 to 66: the four flagged frames, concatenated and
    deduplicated. *)
Definition flag_all (cfg : Config) (transactions : DataFrame) : M DataFrame :=
  by_threshold <- lift (flagged_threshold cfg transactions) ;;
  by_high_risk <- lift (flagged_high_risk cfg transactions) ;;
  flagged_frequent <- detect_frequent transactions ;;
  flagged_complex <- detect_complex transactions ;;
  ret (drop_duplicates
         (concat [by_threshold; by_high_risk;
                  flagged_frequent; flagged_complex])).

(** Lines 68 to 72: an alert for every flagged row, then the mark on
    the whole batch. *)
Definition alert_and_mark (all_flagged transactions : DataFrame) : M unit :=
  alert_flagged all_flagged ;;
  ids <- lift (getitem transactions "transaction_id") ;;
  mark_transactions_processed ids.

(** The body of the [try] of [analyze_transactions], after the early
    return. *)
Definition analyze_body (cfg : Config) (transactions : DataFrame) : M unit :=
  validate_transaction_data transactions ;;
  all_flagged <- flag_all cfg transactions ;;
  alert_and_mark all_flagged transactions.

Definition analyze_transactions_with (cfg : Config) (st : State) : State :=
  let transactions := frame_of (unprocessed st) in
  if empty transactions then
    snd (emit (LogInfo "No new transactions to process.") st)
  else
    try_except (analyze_body cfg transactions)
      "Error analyzing transactions" st.

End Pass.

(** [analyze_transactions] *)
Definition analyze_transactions (cfg : Config) (st : State) : State :=
  analyze_transactions_with
    detect_frequent_transactions
    (detect_complex_patterns cfg)
    (calculate_risk_score cfg)
    cfg st.

(** [archive_old_transactions], run at time [now]: rows dated before the
    cutoff are copied to the archive and deleted, in one transaction.
    Without the archive table the INSERT raises before anything is
    written, the [with conn] block has nothing to roll back, and the
    [except] clause logs the error. *)
Definition archive_old_transactions (cfg : Config) (now : Z) (st : State)
  : State :=
  let archive_date := now - ARCHIVE_AGE_DAYS cfg * 86400 in
  if archive_exists st then
    {| crypto_transactions :=
         filter (fun t => negb (transaction_date t <? archive_date))
                (crypto_transactions st);
       crypto_alerts := crypto_alerts st;
       crypto_transactions_archive :=
         crypto_transactions_archive st ++
         filter (fun t => transaction_date t <? archive_date)
                (crypto_transactions st);
       archive_exists := archive_exists st;
       insert_faults := insert_faults st;
       trace := trace st ++ [LogInfo "Archived transactions."] |}
  else
    snd (emit (LogError "Error archiving old transactions") st).

(** The database and the insert schedule of a state, without the
    events. *)
Definition db (st : State)
  : list Txn * list Alert * list Txn * bool * list bool :=
  (crypto_transactions st, crypto_alerts st,
   crypto_transactions_archive st, archive_exists st, insert_faults st).

(** A statement that leaves an observation of the state as it was,
    however it ends. *)
Definition preserves {X A} (obs : State -> X) (c : M A) : Prop :=
  forall st, obs (snd (c st)) = obs st.

End Crypto.

(* ================================================================== *)
(** ** Transaction-Monitoring-System.py *)
(* ================================================================== *)

Module Fiat.
Import Py.

(** [config.py] *)
Record Config : Type := {
  THRESHOLD_AMOUNT : Z;
  HIGH_RISK_COUNTRIES : list string;
  TRANSACTION_FREQUENCY_LIMIT : Z;
  ROUND_AMOUNT_MULTIPLE : Z;
  ARCHIVE_AGE_DAYS : Z
}.

Definition config : Config := {|
  THRESHOLD_AMOUNT := 10000;
  HIGH_RISK_COUNTRIES := ["North Korea"; "Iran"; "Afghanistan"; "Syria";
                          "Sudan"; "Yemen"; "Venezuela"; "Iraq"; "Myanmar";
                          "Libya"];
  TRANSACTION_FREQUENCY_LIMIT := 10;
  ROUND_AMOUNT_MULTIPLE := 1000;
  ARCHIVE_AGE_DAYS := 30
|}.

(** A row of [transactions] (and of [transactions_archive], a table
    the statements name and the init script does not create).
    [amount] is the number the column holds; [transaction_date] is the
    timestamp in seconds, taken to be a whole second. *)
Record Txn : Type := {
  transaction_id : Z;
  account_id : Z;
  amount : Q;
  transaction_date : Z;
  country : string;
  transaction_type : string;
  payee_id : Z;
  processed : bool
}.

(** A row of [alerts], and a row of the result of [generate_alerts]. *)
Record Alert : Type := {
  alert_transaction_id : Z;
  alert_type : string
}.

Inductive event : Type :=
| LogInfo (msg : string)
| LogWarning (msg : string) (tid : Z)
| LogError (msg : string)
| AlertLogged (a : Alert)
| AlertFailed (tid : Z)
| MarkedProcessed (ids : list Z).

(** The database behind the module-level [conn], the outcomes of the
    alert inserts still to come ([true]: the insert raises), and the
    events so far.  A table is the list of its rows in the order in
    which a scan yields them.  [archive_exists] tells whether the database has the
    table [transactions_archive]; without it the table has no rows and
    every statement that names it raises. *)
Record State : Type := {
  transactions : list Txn;
  alerts : list Alert;
  transactions_archive : list Txn;
  archive_exists : bool;
  insert_faults : list bool;
  trace : list event
}.

(** [SQLite DB Init.py]: the tables [transactions] and [alerts], both
    empty, and no archive table. *)
Definition init_db : State :=
  {| transactions := []; alerts := []; transactions_archive := [];
     archive_exists := false; insert_faults := []; trace := [] |}.

Definition emit (es : list event) (st : State) : State :=
  {| transactions := transactions st;
     alerts := alerts st;
     transactions_archive := transactions_archive st;
     archive_exists := archive_exists st;
     insert_faults := insert_faults st;
     trace := trace st ++ es |}.

(** [SELECT * FROM transactions WHERE processed = 0] *)
Definition unprocessed (st : State) : list Txn :=
  filter (fun t => negb (processed t)) (transactions st).

(** [pd.isnull] of a cell of a fetched row: the rows of the model carry
    no NULL. *)
Definition isnull {A} (cell : A) : bool := false.

(** [validate_transaction_data]: warnings only. *)
Definition validate_transaction_data (batch : list Txn) : list event :=
  flat_map (fun row =>
              (if Qle_bool (amount row) 0
               then [LogWarning "Invalid transaction amount"
                                (transaction_id row)]
               else []) ++
              (if isnull (transaction_date row) || isnull (amount row) ||
                  isnull (account_id row)
               then [LogWarning "Missing data in transaction ID"
                                (transaction_id row)]
               else []))
           batch.

Definition flag (kind : string) (t : Txn) : Alert :=
  {| alert_transaction_id := transaction_id t; alert_type := kind |}.

(** A name as line 118 pastes it into the query: between two
    apostrophes, as it is. *)
Definition quoted (country : string) : string := "'" ++ country ++ "'".

(** The text between the parentheses of [country IN (...)]. *)
Definition in_list_text (cfg : Config) : string :=
  String.concat "," (map quoted (HIGH_RISK_COUNTRIES cfg)).

Definition is_apostrophe (c : ascii) : bool := Ascii.eqb c "'".

Definition is_nul (c : ascii) : bool := Ascii.eqb c "000".

Definition is_blank (c : ascii) : bool :=
  Ascii.eqb c " " || Ascii.eqb c "009" || Ascii.eqb c "010" ||
  Ascii.eqb c "012" || Ascii.eqb c "013".

(** Where SQLite stands in a list of string literals: before the first
    one, inside one, behind an apostrophe inside one (which ends the
    literal unless a second apostrophe follows), behind a literal, behind
    a comma. *)
Inductive scanning : Type :=
| Start
| Literal (acc : string)
| Apostrophe (acc : string)
| Closed
| Comma.

(** SQLite reading [text] as a list of string literals: the literals
    [done] and the one in the making.  Inside a literal two apostrophes
    stand for one; blanks may surround a comma; the empty list is
    accepted.  A text with a NUL is refused before it is parsed.  A text
    that is no list of literals fails: that is every text a name with an
    unpaired apostrophe makes, unless the name is written as SQL of its
    own (an operator, a parenthesis, a comment behind the apostrophe),
    which this reading does not follow. *)
Fixpoint scan (at_ : scanning) (done : list string) (text : string)
  : result (list string) :=
  match text with
  | EmptyString =>
      match at_ with
      | Start | Closed => Ok done
      | Apostrophe acc => Ok (done ++ [acc])
      | Literal _ | Comma => Raise DatabaseError
      end
  | String c rest =>
      if is_nul c then Raise DatabaseError
      else
        match at_ with
        | Start | Comma =>
            if is_blank c then scan at_ done rest
            else if is_apostrophe c then scan (Literal "") done rest
            else Raise DatabaseError
        | Literal acc =>
            if is_apostrophe c then scan (Apostrophe acc) done rest
            else scan (Literal (acc ++ String c "")) done rest
        | Apostrophe acc =>
            if is_apostrophe c then scan (Literal (acc ++ "'")) done rest
            else if is_blank c then scan Closed (done ++ [acc]) rest
            else if Ascii.eqb c "," then scan Comma (done ++ [acc]) rest
            else Raise DatabaseError
        | Closed =>
            if is_blank c then scan Closed done rest
            else if Ascii.eqb c "," then scan Comma done rest
            else Raise DatabaseError
        end
  end.

(** The countries the query compares with, or the failure of the
    query. *)
Definition country_literals (cfg : Config) : result (list string) :=
  scan Start [] (in_list_text cfg).

(** A name without an apostrophe and without a NUL. *)
Definition plain (name : string) : bool :=
  forallb (fun c => negb (is_apostrophe c || is_nul c))
          (list_ascii_of_string name).

(** CTE [high_risk_countries] *)
Definition high_risk_countries (cfg : Config) (table : list Txn)
  : result (list Alert) :=
  bind (country_literals cfg) (fun listed =>
  Ok (map (flag "High-Risk Country")
          (filter (fun t => mem String.eqb (country t) listed) table))).

(** The order of the window [PARTITION BY account_id ORDER BY
    transaction_date]; rows with equal keys stay in table order. *)
Definition window_leb (a b : Txn) : bool :=
  (account_id a <? account_id b) ||
  ((account_id a =? account_id b) &&
   (transaction_date a <=? transaction_date b)).

(** [LAG(transaction_date)] along the sorted rows: the date of the row
    before, when that row is of the same account. *)
Fixpoint lag (prev : option Txn) (sorted : list Txn)
  : list (Txn * option Z) :=
  match sorted with
  | [] => []
  | t :: rest =>
      (t, match prev with
          | Some p => if account_id p =? account_id t
                      then Some (transaction_date p) else None
          | None => None
          end) :: lag (Some t) rest
  end.

(** CTE [rapid_succession].  Line 82 subtracts [strftime('%s', ...)]
    values, the whole seconds of the two timestamps. *)
Definition rapid_succession (table : list Txn) : list Alert :=
  map (fun r => flag "Rapid Succession" (fst r))
      (filter (fun r => match snd r with
                        | Some prev_transaction_date =>
                            transaction_date (fst r) - prev_transaction_date
                            <? 60
                        | None => false
                        end)
              (lag None (sort_by window_leb table))).

(** [CAST(x AS INTEGER)] of a number: the fraction is dropped, and a
    value beyond 64 bits becomes the nearest 64-bit integer. *)
Definition cast_integer (x : Q) : Z :=
  Z.max (- 2 ^ 63) (Z.min (2 ^ 63 - 1) (Z.quot (Qnum x) (Z.pos (Qden x)))).

(** CTE [round_amount].  [%] casts both operands to INTEGER and takes
    the remainder of the truncating division; by zero it is NULL, which
    selects nothing. *)
Definition round_amount (cfg : Config) (table : list Txn) : list Alert :=
  let multiple := cast_integer (inject_Z (ROUND_AMOUNT_MULTIPLE cfg)) in
  map (flag "Round Amount")
      (filter (fun t => negb (multiple =? 0) &&
                        (Z.rem (cast_integer (amount t)) multiple =? 0))
              table).

(** [DATE(transaction_date)] as a day number. *)
Definition DATE (ts : Z) : Z := ts / 86400.

(** The order in which the window [PARTITION BY account_id,
    DATE(transaction_date)] hands its rows on; rows with equal keys stay
    in table order. *)
Definition partition_leb (a b : Txn) : bool :=
  (account_id a <? account_id b) ||
  ((account_id a =? account_id b) &&
   (DATE (transaction_date a) <=? DATE (transaction_date b))).

(** CTE [high_frequency] *)
Definition high_frequency (cfg : Config) (table : list Txn) : list Alert :=
  let transaction_count t :=
    Z.of_nat (List.length
                (filter (fun u => (account_id u =? account_id t) &&
                                  (DATE (transaction_date u) =?
                                   DATE (transaction_date t)))
                        table)) in
  map (flag "High Frequency")
      (filter (fun t => TRANSACTION_FREQUENCY_LIMIT cfg <? transaction_count t)
              (sort_by partition_leb table)).

(** CTE [new_payees] *)
Definition new_payees (table : list Txn) : list Alert :=
  let count t :=
    List.length (filter (fun u => (account_id u =? account_id t) &&
                                  (payee_id u =? payee_id t))
                        table) in
  map (flag "New Payee")
      (filter (fun t => Nat.eqb (count t) 1) table).

(** [generate_alerts]: its argument is not used; the query reads the
    table [transactions] of the database.  The rows come CTE by CTE, as
    the UNION ALL lists them: those of the two window rules in the order
    of their windows, the others in table order.  SQL itself promises
    no order. *)
Definition generate_alerts (cfg : Config) (_ : list Txn) (st : State)
  : result (list Alert) :=
  let table := transactions st in
  bind (high_risk_countries cfg table) (fun listed_country =>
  Ok (listed_country ++
      rapid_succession table ++
      round_amount cfg table ++
      high_frequency cfg table ++
      new_payees table)).

(** [log_alert]: the insert and its commit; a failed insert is logged
    and swallowed. *)
Definition log_alert (transaction_id : Z) (alert_type : string) (st : State)
  : State :=
  let a := {| alert_transaction_id := transaction_id;
              alert_type := alert_type |} in
  match insert_faults st with
  | true :: rest =>
      {| transactions := transactions st;
         alerts := alerts st;
         transactions_archive := transactions_archive st;
         archive_exists := archive_exists st;
         insert_faults := rest;
         trace := trace st ++ [AlertFailed transaction_id] |}
  | faults =>
      {| transactions := transactions st;
         alerts := alerts st ++ [a];
         transactions_archive := transactions_archive st;
         archive_exists := archive_exists st;
         insert_faults := tl faults;
         trace := trace st ++ [AlertLogged a] |}
  end.

Definition set_processed (t : Txn) : Txn :=
  {| transaction_id := transaction_id t;
     account_id := account_id t;
     amount := amount t;
     transaction_date := transaction_date t;
     country := country t;
     transaction_type := transaction_type t;
     payee_id := payee_id t;
     processed := true |}.

(** [mark_transactions_processed] *)
Definition mark_transactions_processed (transaction_ids : list Z)
    (st : State) : State :=
  {| transactions :=
       map (fun t => if mem Z.eqb (transaction_id t) transaction_ids
                     then set_processed t else t)
           (transactions st);
     alerts := alerts st;
     transactions_archive := transactions_archive st;
     archive_exists := archive_exists st;
     insert_faults := insert_faults st;
     trace := trace st ++ [MarkedProcessed transaction_ids] |}.

(** [monitor_transactions].  Inside its [try] the query of
    [generate_alerts] can fail: the [except] clause then logs the error,
    and the lines behind the call are not run.  The alert insert fails
    inside [log_alert], which handles it itself. *)
Definition monitor_transactions (cfg : Config) (st : State) : State :=
  let batch := unprocessed st in
  match batch with
  | [] => emit [LogInfo "No new transactions to process."] st
  | _ =>
      let st1 := emit (validate_transaction_data batch) st in
      match generate_alerts cfg batch st1 with
      | Raise _ => emit [LogError "Error processing transactions"] st1
      | Ok found =>
          let st2 :=
            fold_left (fun s row =>
                         log_alert (alert_transaction_id row)
                                   (alert_type row) s)
                      found st1 in
          mark_transactions_processed (map transaction_id batch) st2
      end
  end.

(** [archive_old_transactions], run at time [now].  Without the archive
    table the INSERT raises before anything is written, and the
    [except] clause logs the error.  The DELETE reads the table the
    INSERT has just read and fails on a fault of the storage only, which
    is left out here as for the other statements. *)
Definition archive_old_transactions (cfg : Config) (now : Z) (st : State)
  : State :=
  let archive_date := now - ARCHIVE_AGE_DAYS cfg * 86400 in
  if archive_exists st then
    {| transactions :=
         filter (fun t => negb (transaction_date t <? archive_date))
                (transactions st);
       alerts := alerts st;
       transactions_archive :=
         transactions_archive st ++
         filter (fun t => transaction_date t <? archive_date)
                (transactions st);
       archive_exists := archive_exists st;
       insert_faults := insert_faults st;
       trace := trace st ++ [LogInfo "Archived transactions."] |}
  else emit [LogError "Error archiving old transactions"] st.

(** The events of the loop of lines 50 and 51 over [rows], when the
    inserts end as [faults] says: per row the alert stored, or its
    insert logged as failed. *)
Fixpoint attempts (faults : list bool) (rows : list Alert) : list event :=
  match rows with
  | [] => []
  | row :: rows' =>
      (if hd false faults then AlertFailed (alert_transaction_id row)
       else AlertLogged row) :: attempts (tl faults) rows'
  end.

(** The alerts a run of events stored. *)
Definition stored (tried : list event) : list Alert :=
  flat_map (fun e => match e with AlertLogged a => [a] | _ => [] end)
           tried.

End Fiat.

(* ================================================================== *)
(** ** The monitoring loops *)
(* ================================================================== *)

Module FiatLoop.
Import Fiat.

(** Rows that upstream ingestion adds to [transactions] while the loop
    sleeps. *)
Definition arrive (new : list Txn) (st : State) : State :=
  {| transactions := transactions st ++ new;
     alerts := alerts st;
     transactions_archive := transactions_archive st;
     archive_exists := archive_exists st;
     insert_faults := insert_faults st;
     trace := trace st |}.

(** One turn of the [while True] of [run_monitoring_loop], up to its
    sleep; [now] is the clock the archiver reads. *)
Definition turn (cfg : Config) (now : Z) (st : State) : State :=
  emit [LogInfo "Monitoring completed."]
       (archive_old_transactions cfg now (monitor_transactions cfg st)).

(** [run_monitoring_loop] along a finite stretch of its run: per turn
    the clock and the rows that arrive during the sleep after it. *)
Fixpoint run_monitoring_loop (cfg : Config) (turns : list (Z * list Txn))
    (st : State) : State :=
  match turns with
  | [] => st
  | (now, new) :: rest =>
      run_monitoring_loop cfg rest (arrive new (turn cfg now st))
  end.

End FiatLoop.

Module CryptoLoop.
Import Py Crypto.

(** What ends [run_monitoring_loop]. *)
Inductive stop : Type :=
| NameError (name : string)
| KeyboardInterrupt.

(** [time.sleep(interval)]: the tool does not import [time], so looking
    the name up raises [NameError] before anything sleeps. *)
Definition time_sleep : option stop := Some (NameError "time").

Definition arrive (new : list Txn) (st : State) : State :=
  {| crypto_transactions := crypto_transactions st ++ new;
     crypto_alerts := crypto_alerts st;
     crypto_transactions_archive := crypto_transactions_archive st;
     archive_exists := archive_exists st;
     insert_faults := insert_faults st;
     trace := trace st |}.

(** One turn of the [while True], up to its sleep. *)
Definition turn (cfg : Config) (now : Z) (st : State) : State :=
  snd (emit (LogInfo "Monitoring completed.")
         (archive_old_transactions cfg now (analyze_transactions cfg st))).

(** [run_monitoring_loop] along a finite stretch of its run.  The
    [except KeyboardInterrupt] clause logs and returns; any other
    exception leaves the function. *)
Fixpoint run_monitoring_loop (cfg : Config) (turns : list (Z * list Txn))
    (st : State) : option stop * State :=
  match turns with
  | [] => (None, st)
  | (now, new) :: rest =>
      let st1 := turn cfg now st in
      match time_sleep with
      | None => run_monitoring_loop cfg rest (arrive new st1)
      | Some KeyboardInterrupt =>
          (None,
           snd (emit (LogInfo "Monitoring loop interrupted. Exiting...") st1))
      | Some other => (Some other, st1)
      end
  end.

End CryptoLoop.

(* ================================================================== *)
(** ** generate_docs.py *)
(* ================================================================== *)

Module DocGen.
Import Py Pandas.

Inductive event : Type :=
| LogInfo (msg : string)
| LogWarning (alert_id : value) (missing_fields : list string)
| LogError (msg : string) (report_id : value)
| Generated (report_id : value).

(** The dictionary [prepare_report_data] builds. *)
Record ReportData : Type := {
  report_id : value;
  date : Z;
  subject_name : value;
  account_number : value;
  transaction_id : value;
  activity_description : value;
  comments : string
}.

(** [alert.get(key, default)] *)
Definition Series_get (alert : Row) (key : string) (default : value)
  : value :=
  match row_getitem alert key with
  | Ok v => v
  | Raise _ => default
  end.

Definition isnull (v : value) : bool := value_eqb v VNull.

Definition required_fields : list string :=
  ["transaction_id"; "alert_id"; "alert_type"].

(** [load_alerts]: the rows of [alerts], or the empty frame when the
    database cannot be read. *)
Definition load_alerts (db : option DataFrame) : DataFrame * list event :=
  match db with
  | Some df => (df, [LogInfo "Loaded alerts from the database."])
  | None => (DataFrame_empty, [LogError "Error loading alerts" VNull])
  end.

(** [validate_alert]: the verdict and what it logs. *)
Definition validate_alert (alert : Row) : result (bool * list event) :=
  let missing_fields :=
    filter (fun field => isnull (Series_get alert field VNull))
           required_fields in
  match missing_fields with
  | [] => Ok (true, [])
  | _ =>
      bind (row_getitem alert "alert_id") (fun alert_id =>
      Ok (false, [LogWarning alert_id missing_fields]))
  end.

(** [prepare_report_data], at time [now]. *)
Definition prepare_report_data (now : Z) (alert : Row) : result ReportData :=
  bind (row_getitem alert "alert_id") (fun alert_id =>
  bind (row_getitem alert "transaction_id") (fun tid =>
  bind (row_getitem alert "alert_type") (fun kind =>
  Ok {| report_id := alert_id;
        date := now;
        subject_name := Series_get alert "subject_name" (VStr "John Doe");
        account_number :=
          Series_get alert "account_number" (VStr "1234567890");
        transaction_id := tid;
        activity_description := kind;
        comments :=
          "Automatically generated SAR for suspicious activity." |}))).

Section Rendering.

(** Whether template, PDF and file output go through for a report, the
    time at which each alert is handled, and [cpu_count()]. *)
Variable renders : ReportData -> bool.
Variable clock : Row -> Z.
Variable cpu_count : Z.

(** [generate_sar]: the log lines and the SAR written, if any; every
    exception is caught and logged. *)
Definition generate_sar (report_data : ReportData)
  : list event * list ReportData :=
  if renders report_data
  then ([Generated (report_id report_data)], [report_data])
  else ([LogError "Error generating SAR" (report_id report_data)], []).

(** [generate_sar_from_alert] *)
Definition generate_sar_from_alert (alert : Row)
  : result (list event * list ReportData) :=
  bind (validate_alert alert) (fun v =>
  if fst v then
    bind (prepare_report_data (clock alert) alert) (fun report_data =>
    let out := generate_sar report_data in
    Ok (snd v ++ fst out, snd out))
  else Ok (snd v, [])).

(** The list comprehension of [generate_reports]: the alerts that
    validate, and the warnings for the others. *)
Fixpoint valid_alerts (alerts : list Row)
  : result (list Row * list event) :=
  match alerts with
  | [] => Ok ([], [])
  | alert :: rest =>
      bind (validate_alert alert) (fun v =>
      bind (valid_alerts rest) (fun r =>
      Ok (if fst v then alert :: fst r else fst r, snd v ++ snd r)))
  end.

(** [pool.map(generate_sar_from_alert, valid_alerts)]: the results in
    the order of the alerts; the workers themselves run side by side. *)
Fixpoint pool_map (alerts : list Row)
  : result (list event * list ReportData) :=
  match alerts with
  | [] => Ok ([], [])
  | alert :: rest =>
      bind (generate_sar_from_alert alert) (fun o =>
      bind (pool_map rest) (fun r =>
      Ok (fst o ++ fst r, snd o ++ snd r)))
  end.

(** [generate_reports]: the log, and the SARs written or the exception
    that ends the run.  [Pool] refuses fewer than one process. *)
Definition generate_reports (db : option DataFrame)
  : list event * result (list ReportData) :=
  let loaded := load_alerts db in
  match valid_alerts (iterrows (fst loaded)) with
  | Raise e => (snd loaded, Raise e)
  | Ok (valid, warnings) =>
      let num_workers := Z.min cpu_count (Z.of_nat (List.length valid)) in
      if num_workers <? 1 then (snd loaded ++ warnings, Raise ValueError)
      else
        match pool_map valid with
        | Raise e => (snd loaded ++ warnings, Raise e)
        | Ok (logged, written) =>
            (snd loaded ++ warnings ++ logged, Ok written)
        end
  end.

End Rendering.

End DocGen.

(* ================================================================== *)
(** ** Sample stores *)
(* ================================================================== *)

Module CryptoSamples.
Import Py Pandas Crypto.

Definition txn (id from_ to_ : string) (usd date : Z) : Txn :=
  {| transaction_id := id; from_address := from_; to_address := to_;
     value_usd := usd; transaction_fee := 1; transaction_date := date;
     blockchain := "bitcoin"; processed := false |}.

(** A database with all three tables, the archive empty. *)
Definition store (l : list Txn) (faults : list bool) : State :=
  {| crypto_transactions := l; crypto_alerts := [];
     crypto_transactions_archive := []; archive_exists := true;
     insert_faults := faults; trace := [] |}.

Definition listed : string := "1DkqkW9i9szEdSa7ZrM4q2eA6kWE2w2DSm".

(** Five transfers along six addresses; the last one is above the value
    threshold and pays a listed address. *)
Definition chain : list Txn :=
  [txn "t1" "a" "b" 100 0; txn "t2" "b" "c" 100 3600;
   txn "t3" "c" "d" 100 7200; txn "t4" "d" "e" 100 10800;
   txn "t5" "e" listed 20000 14400].

Definition t5_row : Row :=
  combine txn_columns (txn_cells (txn "t5" "e" listed 20000 14400)).

(** One transfer above the threshold from a listed address. *)
Definition lone : Txn := txn "u1" listed "z" 20000 0.

Definition lone_row : Row := combine txn_columns (txn_cells lone).

(** One source at [t], [t + 5 min] and [t + 20 min]. *)
Definition burst : list Txn :=
  [txn "b1" "s" "x" 100 1000; txn "b2" "s" "y" 100 1300;
   txn "b3" "s" "z" 100 2200].

(** A frequency detector that flags nothing. *)
Definition quiet (_ : DataFrame) : M DataFrame := ret DataFrame_empty.

End CryptoSamples.

Module FiatSamples.
Import Fiat.

(** A transaction of a whole amount. *)
Definition txn (id acc amt date : Z) (c : string) (payee : Z) (done : bool)
  : Txn :=
  {| transaction_id := id; account_id := acc; amount := inject_Z amt;
     transaction_date := date; country := c; transaction_type := "wire";
     payee_id := payee; processed := done |}.

(** A database with all three tables, the archive empty. *)
Definition store (l : list Txn) (faults : list bool) : State :=
  {| transactions := l; alerts := []; transactions_archive := [];
     archive_exists := true; insert_faults := faults; trace := [] |}.

(** A store with one new transaction to a listed country. *)
Definition first_store : State := store [txn 1 7 250 1000 "Iran" 3 false] [].

(** Upstream ingestion adds a row to [transactions]. *)
Definition ingest (t : Txn) (st : State) : State :=
  {| transactions := transactions st ++ [t];
     alerts := alerts st;
     transactions_archive := transactions_archive st;
     archive_exists := archive_exists st;
     insert_faults := insert_faults st;
     trace := trace st |}.

Definition iran_alert : Alert :=
  {| alert_transaction_id := 1; alert_type := "High-Risk Country" |}.

(** Account 7 at [t], [t + 30 s] and [t + 230 s], and one transaction of
    account 8 in between. *)
Definition burst : list Txn :=
  [txn 11 7 250 1000 "France" 3 false; txn 12 7 250 1030 "France" 3 false;
   txn 14 8 250 1040 "France" 3 false; txn 13 7 250 1230 "France" 3 false].

(** A configuration that allows one transaction per account and day. *)
Definition two_a_day : Config :=
  {| THRESHOLD_AMOUNT := 10000; HIGH_RISK_COUNTRIES := ["Iran"];
     TRANSACTION_FREQUENCY_LIMIT := 1; ROUND_AMOUNT_MULTIPLE := 1000;
     ARCHIVE_AGE_DAYS := 30 |}.

End FiatSamples.

Module MoreSamples.
Import Py Pandas.

(** Account 7 pays payee 3 twice and payee 5 once, one payment to a
    listed country and one of a round amount. *)
Definition ledger : list Fiat.Txn :=
  [FiatSamples.txn 21 7 250 1000 "Iran" 3 true;
   FiatSamples.txn 22 7 3000 90000 "France" 3 false;
   FiatSamples.txn 23 7 125 90500 "France" 5 false].

(** Rows of [alerts] as [SELECT *] returns them: one complete, one
    without a transaction id. *)
Definition alert_columns : list string :=
  ["alert_id"; "transaction_id"; "alert_type"; "alert_date"].

Definition alerts_frame : DataFrame :=
  {| index_names := [];
     columns := alert_columns;
     rows := [([VNum 0], [VNum 1; VNum 21; VStr "High-Risk Country";
                          VTime 5000]);
              ([VNum 1], [VNum 2; VNull; VStr "Round Amount";
                          VTime 6000])] |}.

Definition complete_alert : Row :=
  combine alert_columns
    [VNum 1; VNum 21; VStr "High-Risk Country"; VTime 5000].

(** A batch of [crypto_transactions] with gaps: a refund without a
    receiver, a transfer without a value, and a complete row. *)
Definition gappy : DataFrame :=
  {| index_names := [];
     columns := Crypto.txn_columns;
     rows := [([VNum 0], [VStr "g1"; VStr "a"; VNull; VNum (-5); VNum 1;
                          VTime 100; VStr "bitcoin"; VNum 0]);
              ([VNum 1], [VStr "g2"; VStr "a"; VStr "b"; VNull; VNum 1;
                          VTime 200; VStr "bitcoin"; VNum 0]);
              ([VNum 2], [VStr "g3"; VStr "b"; VStr "c"; VNum 70; VNum 1;
                          VTime 300; VStr "bitcoin"; VNum 0])] |}.

(** A transaction of 1000.50 and one of 10. *)
Definition odd_cents : Fiat.Txn :=
  {| Fiat.transaction_id := 31; Fiat.account_id := 9;
     Fiat.amount := 2001 # 2; Fiat.transaction_date := 2000;
     Fiat.country := "France"; Fiat.transaction_type := "wire";
     Fiat.payee_id := 1; Fiat.processed := false |}.

Definition till : list Fiat.Txn :=
  [odd_cents; FiatSamples.txn 32 9 10 2100 "France" 2 false].

(** A configuration whose list has a name with an apostrophe. *)
Definition with_apostrophe : Fiat.Config :=
  {| Fiat.THRESHOLD_AMOUNT := 10000;
     Fiat.HIGH_RISK_COUNTRIES := ["Iran"; "Cote d'Ivoire"];
     Fiat.TRANSACTION_FREQUENCY_LIMIT := 10;
     Fiat.ROUND_AMOUNT_MULTIPLE := 1000;
     Fiat.ARCHIVE_AGE_DAYS := 30 |}.

End MoreSamples.

(* ================================================================== *)
(** ** Properties *)
(* ================================================================== *)

Import Py.

(** *** The monitor re-reads reviewed rows *)

(** C1.  A reviewed transaction should be left out of every later pass.
    In the fiat monitor it is not: [generate_alerts] queries the whole
    table.  Transaction 1 is alerted and marked by a first pass; after a
    second transaction arrives, the next pass finds transaction 1
    processed and alerts it again for the same cause. *)
Theorem fiat_reviewed_transaction_flagged_again :
  let st1 := Fiat.monitor_transactions Fiat.config FiatSamples.first_store in
  let st2 := Fiat.monitor_transactions Fiat.config
               (FiatSamples.ingest
                  (FiatSamples.txn 2 8 120 500000 "France" 4 false) st1) in
  let for_iran a :=
    (Fiat.alert_transaction_id a =? 1) &&
    String.eqb (Fiat.alert_type a) "High-Risk Country" in
  map Fiat.processed (Fiat.transactions st1) = [true] /\
  filter for_iran (Fiat.alerts st1) = [FiatSamples.iran_alert] /\
  filter for_iran (Fiat.alerts st2)
  = [FiatSamples.iran_alert; FiatSamples.iran_alert].
Proof. vm_compute. repeat split. Qed.

(** *** The crypto detectors and scorer at the sample batch *)

(** C3.  The graph detector should return the ids of the transactions
    of every oversized component.  On the six-address chain (limit 5) it
    returns the five edges, but their [transaction_id] is null: the
    graph was built with [value_usd] as the only edge attribute, so
    [x.get('transaction_id')] finds nothing. *)
Theorem graph_detector_loses_transaction_ids :
  let batch := Crypto.frame_of CryptoSamples.chain in
  let out := fst (Crypto.detect_complex_patterns Crypto.config batch
                    (CryptoSamples.store CryptoSamples.chain [])) in
  Pandas.getitem batch "transaction_id"
  = Ok [VStr "t1"; VStr "t2"; VStr "t3"; VStr "t4"; VStr "t5"] /\
  bind out (fun df => Ok (Pandas.len df)) = Ok 5 /\
  bind out (fun df => Pandas.getitem df "transaction_id")
  = Ok [VNull; VNull; VNull; VNull; VNull].
Proof. vm_compute. repeat split. Qed.

(** C2.  The score should use the rule tags of the current pass.  The
    scorer instead calls the graph detector on [pd.DataFrame()]; that
    frame has no columns, the call raises, and so does the scorer, for
    the row of [t5] whose edge the detector has just flagged in the
    current batch. *)
Theorem scorer_reinvokes_detector_on_empty_frame :
  let st := CryptoSamples.store CryptoSamples.chain [] in
  let current :=
    fst (Crypto.detect_complex_patterns Crypto.config
           (Crypto.frame_of CryptoSamples.chain) st) in
  bind current (fun df => Pandas.getitem df "to_address")
  = Ok [VStr "b"; VStr "c"; VStr "d"; VStr "e"; VStr CryptoSamples.listed] /\
  fst (Crypto.detect_complex_patterns Crypto.config Pandas.DataFrame_empty st)
  = Raise NetworkXError /\
  fst (Crypto.calculate_risk_score Crypto.config CryptoSamples.t5_row st)
  = Raise NetworkXError.
Proof. vm_compute. repeat split. Qed.

(** C6.  A transaction above the threshold with a listed address should
    score 80, and one that is also in an oversized cluster 100.  The
    scorer returns no score for either row: it raises in its detector
    call on the empty frame. *)
Theorem risk_score_not_returned :
  fst (Crypto.calculate_risk_score Crypto.config CryptoSamples.lone_row
         (CryptoSamples.store [CryptoSamples.lone] []))
  = Raise NetworkXError /\
  fst (Crypto.calculate_risk_score Crypto.config CryptoSamples.t5_row
         (CryptoSamples.store CryptoSamples.chain []))
  = Raise NetworkXError.
Proof. vm_compute. split; reflexivity. Qed.

(** C4.  Of three transactions of one source at [t], [t + 5 min] and
    [t + 20 min] the frequency rule should flag the second.  The crypto
    detector raises instead: after [set_index('transaction_date')] the
    frame is differenced column by column, which fails on the text
    columns.  On a batch of one transaction the differencing has
    nothing to subtract, and the detector raises at [.transaction_date],
    which is no column any more. *)
Theorem frequent_detector_raises_on_burst :
  fst (Crypto.detect_frequent_transactions
         (Crypto.frame_of CryptoSamples.burst)
         (CryptoSamples.store CryptoSamples.burst []))
  = Raise TypeError /\
  fst (Crypto.detect_frequent_transactions
         (Crypto.frame_of [CryptoSamples.lone])
         (CryptoSamples.store [CryptoSamples.lone] []))
  = Raise (AttributeError "transaction_date").
Proof. vm_compute. split; reflexivity. Qed.

(** C5.  A pass over a non-empty batch should end with one call of
    [mark_transactions_processed] for the whole batch.  The crypto pass
    over the one-transaction store is cut short by an exception: its
    only event is the error line, no alert is stored and the
    transaction stays unprocessed.  With a frequency rule that flags
    nothing in place of the raising one, the pass is cut short all the
    same, by the scorer on the first flagged row. *)
Theorem crypto_pass_never_marks :
  let st := Crypto.analyze_transactions Crypto.config
              (CryptoSamples.store [CryptoSamples.lone] []) in
  let st' := Crypto.analyze_transactions_with CryptoSamples.quiet
               (Crypto.detect_complex_patterns Crypto.config)
               (Crypto.calculate_risk_score Crypto.config) Crypto.config
               (CryptoSamples.store [CryptoSamples.lone] []) in
  (Crypto.trace st = [Crypto.LogError "Error analyzing transactions"] /\
   Crypto.crypto_alerts st = [] /\
   map Crypto.processed (Crypto.crypto_transactions st) = [false]) /\
  (Crypto.trace st'
   = [Crypto.LogInfo "Detected complex pattern transactions.";
      Crypto.LogError "Error analyzing transactions"] /\
   Crypto.crypto_alerts st' = [] /\
   map Crypto.processed (Crypto.crypto_transactions st') = [false]).
Proof. vm_compute. repeat split. Qed.

(** *** Frames read from the store *)

Section FrameFacts.
Import Pandas Crypto.

Lemma mem_In {A} (eqb : A -> A -> bool) (x : A) (l : list A) :
  (forall a b, eqb a b = true <-> a = b) ->
  mem eqb x l = true <-> In x l.
Proof.
  intros Heq. unfold mem. rewrite existsb_exists. split.
  - intros [y [Hy Hxy]]. apply Heq in Hxy. now subst.
  - intros Hx. exists x. split; [assumption | now apply Heq].
Qed.

Lemma map_range_index {A B} (f : list A -> B) (i : Z) (l : list (list A)) :
  map (fun r => f (snd r)) (range_index i l) = map f l.
Proof.
  revert i. induction l as [| r l IH]; intros i; simpl.
  - reflexivity.
  - now rewrite IH.
Qed.

Lemma select_range_index {A B} (f : list A -> B) (g : Txn -> list A)
    (p : Txn -> bool) (i : Z) (l : list Txn) :
  map (fun r => f (snd r))
      (select (map p l) (range_index i (map g l)))
  = map (fun t => f (g t)) (filter p l).
Proof.
  revert i. induction l as [| t l IH]; intros i; simpl.
  - reflexivity.
  - destruct (p t); simpl; now rewrite IH.
Qed.

Lemma mapM_value_gt (c : Z) (l : list Txn) :
  mapM (fun x => value_gt x c) (map (fun t => VNum (value_usd t)) l)
  = Ok (map (fun t => c <? value_usd t) l).
Proof.
  induction l as [| t l IH]; simpl.
  - reflexivity.
  - now rewrite IH.
Qed.

Lemma getitem_value_usd (l : list Txn) :
  getitem (frame_of l) "value_usd" = Ok (map (fun t => VNum (value_usd t)) l).
Proof.
  unfold getitem, frame_of. simpl.
  f_equal.
  rewrite (map_range_index (fun r => nth 3 r VNull)).
  now rewrite map_map.
Qed.

Lemma flagged_threshold_frame_of (cfg : Config) (l : list Txn) :
  flagged_threshold cfg (frame_of l)
  = Ok (getitem_mask (frame_of l)
          (map (fun t => THRESHOLD_VALUE_USD cfg <? value_usd t) l)).
Proof.
  unfold flagged_threshold.
  rewrite getitem_value_usd. simpl.
  now rewrite mapM_value_gt.
Qed.

Lemma flagged_threshold_ids (cfg : Config) (l : list Txn) :
  getitem (getitem_mask (frame_of l)
             (map (fun t => THRESHOLD_VALUE_USD cfg <? value_usd t) l))
          "transaction_id"
  = Ok (map (fun t => VStr (transaction_id t))
            (filter (fun t => THRESHOLD_VALUE_USD cfg <? value_usd t) l)).
Proof.
  unfold getitem, getitem_mask, frame_of. simpl.
  f_equal.
  now rewrite (select_range_index (fun r => nth 0 r VNull) txn_cells).
Qed.

End FrameFacts.

(** *** The value threshold rule *)

(** C9.  On a batch read from the store, whose ids are distinct, the
    value threshold rule returns a frame whose [transaction_id] column
    holds the id of a transaction of the batch exactly when its
    [value_usd] is above [THRESHOLD_VALUE_USD]. *)
Theorem value_threshold_flags_exactly (cfg : Crypto.Config)
    (batch : list Crypto.Txn) :
  NoDup (map Crypto.transaction_id batch) ->
  exists flagged ids,
    Crypto.flagged_threshold cfg (Crypto.frame_of batch) = Ok flagged /\
    Pandas.getitem flagged "transaction_id" = Ok ids /\
    forall t, In t batch ->
      (In (VStr (Crypto.transaction_id t)) ids <->
       Crypto.THRESHOLD_VALUE_USD cfg < Crypto.value_usd t).
Proof.
  intros Hnodup.
  eexists. eexists.
  split; [apply flagged_threshold_frame_of |].
  split; [apply flagged_threshold_ids |].
  intros t Ht. rewrite in_map_iff. split.
  - intros [u [Hid Hu]]. apply filter_In in Hu. destruct Hu as [Hu Hgt].
    injection Hid as Hid.
    assert (u = t) as ->.
    { clear Hgt. induction batch as [| x l IH]; [contradiction |].
      simpl in Hnodup. inversion Hnodup as [| ? ? Hx Hl]; subst.
      destruct Hu as [-> | Hu], Ht as [-> | Ht].
      - reflexivity.
      - exfalso. apply Hx. rewrite Hid. now apply in_map.
      - exfalso. apply Hx. rewrite <- Hid. now apply in_map.
      - now apply IH. }
    now apply Z.ltb_lt.
  - intros Hgt. exists t. split; [reflexivity |].
    apply filter_In. split; [assumption | now apply Z.ltb_lt].
Qed.

Lemma value_threshold_flags_exactly_witness :
  exists flagged ids,
    Crypto.flagged_threshold Crypto.config
      (Crypto.frame_of CryptoSamples.chain) = Ok flagged /\
    Pandas.getitem flagged "transaction_id" = Ok ids /\
    forall t, In t CryptoSamples.chain ->
      (In (VStr (Crypto.transaction_id t)) ids <->
       Crypto.THRESHOLD_VALUE_USD Crypto.config < Crypto.value_usd t).
Proof.
  apply (value_threshold_flags_exactly Crypto.config CryptoSamples.chain).
  vm_compute.
  repeat (constructor; [intros H; repeat destruct H as [H | H];
                        try discriminate H; try contradiction |]).
  constructor.
Defined.

(** *** The archiver *)

Lemma archive_split {T} (old : T -> bool) (active archive : list T) (t : T) :
  ~ (In t active /\ In t archive) ->
  In t active \/ In t archive ->
  let active' := filter (fun x => negb (old x)) active in
  let archive' := archive ++ filter old active in
  (In t active -> old t = true -> In t archive' /\ ~ In t active') /\
  (In t active -> old t = false -> In t active' /\ ~ In t archive') /\
  (In t active' \/ In t archive') /\
  ~ (In t active' /\ In t archive').
Proof.
  intros Hdisj Hin active' archive'. subst active' archive'.
  repeat split.
  - apply in_or_app. right. apply filter_In. now split.
  - rewrite filter_In. intros [_ Hneg]. rewrite H0 in Hneg. discriminate.
  - apply filter_In. split; [assumption | now rewrite H0].
  - intros Hbad. apply in_app_or in Hbad. destruct Hbad as [Hbad | Hbad].
    + now apply Hdisj.
    + apply filter_In in Hbad. destruct Hbad as [_ Hbad].
      rewrite H0 in Hbad. discriminate.
  - destruct Hin as [Hact | Harch].
    + destruct (old t) eqn:Hold.
      * right. apply in_or_app. right. apply filter_In. now split.
      * left. apply filter_In. split; [assumption | now rewrite Hold].
    + right. apply in_or_app. now left.
  - intros [Hact Harch]. apply filter_In in Hact. destruct Hact as [Hact Hneg].
    apply in_app_or in Harch. destruct Harch as [Harch | Harch].
    + now apply Hdisj.
    + apply filter_In in Harch. destruct Harch as [_ Hold].
      rewrite Hold in Hneg. discriminate.
Qed.

(** C7.  One archiver run at time [now], in either program, seen from
    a row that is not in both tables before the run.  When the database
    has the archive table: a row of the active table dated before the
    cutoff is afterwards in the archive and not in the active table; a
    row dated at or after the cutoff is still in the active table and
    not in the archive; and a row of either table is afterwards in one
    of the two tables and not in both.  When it has not, the run logs
    the error and both tables are as they were. *)
Theorem archiver_moves_exactly_the_old (now : Z) :
  (forall cfg st t,
      ~ (In t (Fiat.transactions st) /\
         In t (Fiat.transactions_archive st)) ->
      In t (Fiat.transactions st) \/ In t (Fiat.transactions_archive st) ->
      let cutoff := now - Fiat.ARCHIVE_AGE_DAYS cfg * 86400 in
      let st' := Fiat.archive_old_transactions cfg now st in
      if Fiat.archive_exists st then
        (In t (Fiat.transactions st) -> Fiat.transaction_date t < cutoff ->
         In t (Fiat.transactions_archive st') /\
         ~ In t (Fiat.transactions st')) /\
        (In t (Fiat.transactions st) -> cutoff <= Fiat.transaction_date t ->
         In t (Fiat.transactions st') /\
         ~ In t (Fiat.transactions_archive st')) /\
        (In t (Fiat.transactions st') \/
         In t (Fiat.transactions_archive st')) /\
        ~ (In t (Fiat.transactions st') /\
           In t (Fiat.transactions_archive st'))
      else
        Fiat.transactions st' = Fiat.transactions st /\
        Fiat.transactions_archive st' = Fiat.transactions_archive st /\
        Fiat.trace st'
        = Fiat.trace st
          ++ [Fiat.LogError "Error archiving old transactions"]) /\
  (forall cfg st t,
      ~ (In t (Crypto.crypto_transactions st) /\
         In t (Crypto.crypto_transactions_archive st)) ->
      In t (Crypto.crypto_transactions st) \/
      In t (Crypto.crypto_transactions_archive st) ->
      let cutoff := now - Crypto.ARCHIVE_AGE_DAYS cfg * 86400 in
      let st' := Crypto.archive_old_transactions cfg now st in
      if Crypto.archive_exists st then
        (In t (Crypto.crypto_transactions st) ->
         Crypto.transaction_date t < cutoff ->
         In t (Crypto.crypto_transactions_archive st') /\
         ~ In t (Crypto.crypto_transactions st')) /\
        (In t (Crypto.crypto_transactions st) ->
         cutoff <= Crypto.transaction_date t ->
         In t (Crypto.crypto_transactions st') /\
         ~ In t (Crypto.crypto_transactions_archive st')) /\
        (In t (Crypto.crypto_transactions st') \/
         In t (Crypto.crypto_transactions_archive st')) /\
        ~ (In t (Crypto.crypto_transactions st') /\
           In t (Crypto.crypto_transactions_archive st'))
      else
        Crypto.crypto_transactions st' = Crypto.crypto_transactions st /\
        Crypto.crypto_transactions_archive st'
        = Crypto.crypto_transactions_archive st /\
        Crypto.trace st'
        = Crypto.trace st
          ++ [Crypto.LogError "Error archiving old transactions"]).
Proof.
  split; intros cfg st t Hdisj Hin cutoff st'.
  - subst st'. unfold Fiat.archive_old_transactions.
    destruct (Fiat.archive_exists st); [| repeat split].
    destruct (archive_split
                (fun x => Fiat.transaction_date x <? cutoff)
                (Fiat.transactions st) (Fiat.transactions_archive st) t
                Hdisj Hin) as (Hold & Hnew & Hone & Hboth).
    repeat split.
    + apply Hold; [assumption | now apply Z.ltb_lt].
    + apply Hold; [assumption | now apply Z.ltb_lt].
    + apply Hnew; [assumption | now apply Z.ltb_ge].
    + apply Hnew; [assumption | now apply Z.ltb_ge].
    + exact Hone.
    + exact Hboth.
  - subst st'. unfold Crypto.archive_old_transactions.
    destruct (Crypto.archive_exists st); [| repeat split].
    destruct (archive_split
                (fun x => Crypto.transaction_date x <? cutoff)
                (Crypto.crypto_transactions st)
                (Crypto.crypto_transactions_archive st) t
                Hdisj Hin) as (Hold & Hnew & Hone & Hboth).
    repeat split.
    + apply Hold; [assumption | now apply Z.ltb_lt].
    + apply Hold; [assumption | now apply Z.ltb_lt].
    + apply Hnew; [assumption | now apply Z.ltb_ge].
    + apply Hnew; [assumption | now apply Z.ltb_ge].
    + exact Hone.
    + exact Hboth.
Qed.

Lemma archiver_moves_exactly_the_old_witness :
  let now := 1000 + 31 * 86400 in
  let old := FiatSamples.txn 1 7 250 1000 "Iran" 3 false in
  let st' := Fiat.archive_old_transactions Fiat.config now
               FiatSamples.first_store in
  In old (Fiat.transactions_archive st') /\ ~ In old (Fiat.transactions st').
Proof.
  intros now old st'.
  destruct (archiver_moves_exactly_the_old now) as [Hfiat _].
  apply (Hfiat Fiat.config FiatSamples.first_store old).
  - intros [_ []].
  - left. simpl. left. reflexivity.
  - simpl. left. reflexivity.
  - vm_compute. reflexivity.
Defined.

(** The claim as the specification has it fails on the database the
    init script of the repository creates: the script makes no archive
    table, the archiver's INSERT raises, and a transaction older than
    the cutoff is afterwards still active and not archived. *)
Lemma archiver_leaves_old_row_without_archive_table :
  let now := 1000 + 31 * 86400 in
  let old := FiatSamples.txn 1 7 250 1000 "Iran" 3 false in
  let st := FiatSamples.ingest old Fiat.init_db in
  let st' := Fiat.archive_old_transactions Fiat.config now st in
  In old (Fiat.transactions st) /\
  Fiat.transaction_date old < now - Fiat.ARCHIVE_AGE_DAYS Fiat.config * 86400 /\
  ~ (In old (Fiat.transactions_archive st') /\
     ~ In old (Fiat.transactions st')).
Proof.
  cbv zeta. split; [| split].
  - left. reflexivity.
  - vm_compute. reflexivity.
  - intros [Harchived _]. exact Harchived.
Qed.

(** *** Alert inserts that fail *)

Section FiatPass.
Import Fiat.

Lemma log_alerts_run (found : list Alert) (s : State) :
  let s' := fold_left
              (fun s row =>
                 log_alert (alert_transaction_id row) (alert_type row) s)
              found s in
  trace s' = trace s ++ attempts (insert_faults s) found /\
  alerts s' = alerts s ++ stored (attempts (insert_faults s) found) /\
  insert_faults s' = skipn (List.length found) (insert_faults s) /\
  transactions s' = transactions s /\
  transactions_archive s' = transactions_archive s /\
  archive_exists s' = archive_exists s.
Proof.
  revert s. induction found as [| [tid kind] found IH]; intros s.
  - cbn. now rewrite !app_nil_r.
  - cbn [fold_left]. cbv zeta in IH |- *.
    destruct (IH (log_alert tid kind s))
      as (Htr & Hal & Hf & Htx & Har & Hex).
    cbn [alert_transaction_id alert_type].
    rewrite Htr, Hal, Hf, Htx, Har, Hex. clear Htr Hal Hf Htx Har Hex IH.
    unfold log_alert.
    destruct (insert_faults s) as [| [|] rest]; cbn;
      rewrite <- !app_assoc; repeat split.
    apply skipn_nil.
Qed.

Lemma monitor_completes (cfg : Config) (st : State) (rows : list Alert) :
  unprocessed st <> [] ->
  generate_alerts cfg (unprocessed st) st = Ok rows ->
  monitor_transactions cfg st
  = mark_transactions_processed (map transaction_id (unprocessed st))
      (fold_left
         (fun s row =>
            log_alert (alert_transaction_id row) (alert_type row) s)
         rows (emit (validate_transaction_data (unprocessed st)) st)).
Proof.
  intros Hne Hrows. unfold monitor_transactions.
  destruct (unprocessed st) as [| b bs] eqn:Hb; [contradiction |].
  cbv zeta.
  replace (generate_alerts cfg (b :: bs)
             (emit (validate_transaction_data (b :: bs)) st))
    with (Ok (A := list Alert) rows) by (symmetry; exact Hrows).
  reflexivity.
Qed.

Lemma monitor_gives_up (cfg : Config) (st : State) (e : exn) :
  unprocessed st <> [] ->
  generate_alerts cfg (unprocessed st) st = Raise e ->
  monitor_transactions cfg st
  = emit [LogError "Error processing transactions"]
         (emit (validate_transaction_data (unprocessed st)) st).
Proof.
  intros Hne Hrows. unfold monitor_transactions.
  destruct (unprocessed st) as [| b bs] eqn:Hb; [contradiction |].
  cbv zeta.
  replace (generate_alerts cfg (b :: bs)
             (emit (validate_transaction_data (b :: bs)) st))
    with (Raise (A := list Alert) e) by (symmetry; exact Hrows).
  reflexivity.
Qed.



End FiatPass.



(** *** Statements that leave the tables alone *)

Section CryptoPass.
Import Pandas Crypto.

Lemma preserves_ret {X A} (obs : State -> X) (a : A) :
  preserves obs (ret a).
Proof. intros st. reflexivity. Qed.

Lemma preserves_lift {X A} (obs : State -> X) (r : result A) :
  preserves obs (lift r).
Proof. intros st. reflexivity. Qed.

Lemma preserves_bind {X A B} (obs : State -> X) (c : M A) (k : A -> M B) :
  preserves obs c -> (forall a, preserves obs (k a)) ->
  preserves obs (bindM c k).
Proof.
  intros Hc Hk st. unfold bindM. specialize (Hc st).
  destruct (c st) as [[a | e] st']; simpl in *.
  - now rewrite Hk.
  - exact Hc.
Qed.

Lemma preserves_for_each {X A} (obs : State -> X) (l : list A)
    (body : A -> M unit) :
  (forall x, preserves obs (body x)) -> preserves obs (for_each l body).
Proof.
  intros Hbody. induction l as [| x l IH]; simpl.
  - apply preserves_ret.
  - apply preserves_bind; [apply Hbody | intros _; exact IH].
Qed.

Lemma preserves_when {X} (obs : State -> X) (b : bool) (c : M unit) :
  preserves obs c -> preserves obs (when b c).
Proof. intros Hc. destruct b; [exact Hc | apply preserves_ret]. Qed.

Lemma preserves_emit (e : event) : preserves db (emit e).
Proof. intros st. reflexivity. Qed.

Lemma preserves_db_transactions {A} (c : M A) :
  preserves db c -> preserves crypto_transactions c.
Proof.
  intros Hc st. specialize (Hc st). unfold db in Hc. congruence.
Qed.

Lemma preserves_db_alerts {A} (c : M A) :
  preserves db c -> preserves crypto_alerts c.
Proof.
  intros Hc st. specialize (Hc st). unfold db in Hc. congruence.
Qed.

Lemma log_alert_keeps_transactions (tid : value) (risk : Z) :
  preserves crypto_transactions (log_alert tid risk).
Proof.
  intros st. unfold log_alert.
  destruct (insert_faults st) as [| [|] rest]; reflexivity.
Qed.

Lemma validate_neutral (df : DataFrame) :
  preserves db (validate_transaction_data df).
Proof.
  apply preserves_for_each. intros row. unfold validate_row.
  repeat (apply preserves_bind; [try apply preserves_lift | intros ?]).
  - apply preserves_when, preserves_emit.
  - apply preserves_when, preserves_emit.
Qed.

Lemma detect_complex_patterns_neutral (cfg : Config) (df : DataFrame) :
  preserves db (detect_complex_patterns cfg df).
Proof.
  unfold detect_complex_patterns.
  destruct (GRAPH_ANALYSIS_LIMIT cfg <? len df).
  - apply preserves_bind; [apply preserves_emit |].
    intros _. apply preserves_ret.
  - apply preserves_bind; [apply preserves_lift |]. intros G.
    apply preserves_bind; [apply preserves_emit |].
    intros _. apply preserves_ret.
Qed.

Lemma calculate_risk_score_neutral (cfg : Config) (row : Row) :
  preserves db (calculate_risk_score cfg row).
Proof.
  unfold calculate_risk_score.
  apply preserves_bind; [apply preserves_lift | intros v].
  apply preserves_bind; [apply preserves_lift | intros above].
  apply preserves_bind; [apply preserves_lift | intros f].
  apply preserves_bind.
  { destruct (value_in f (HIGH_RISK_ADDRESSES cfg)).
    - apply preserves_ret.
    - apply preserves_bind; [apply preserves_lift |].
      intros t. apply preserves_ret. }
  intros risky.
  apply preserves_bind; [apply preserves_lift | intros tid].
  apply preserves_bind; [apply detect_complex_patterns_neutral | intros c].
  apply preserves_bind; [apply preserves_lift | intros ids].
  apply preserves_ret.
Qed.

Section Scorer.
Variable risk_score_of : Row -> M Z.
Hypothesis score_neutral : forall row, preserves db (risk_score_of row).

Lemma alert_row_keeps_transactions (row : Row) :
  preserves crypto_transactions (alert_row risk_score_of row).
Proof.
  unfold alert_row.
  apply preserves_bind;
    [apply preserves_db_transactions, score_neutral | intros risk].
  apply preserves_bind; [apply preserves_lift | intros tid].
  apply log_alert_keeps_transactions.
Qed.

End Scorer.

Lemma for_each_app {A} (l1 l2 : list A) (body : A -> M unit) (st : State) :
  for_each (l1 ++ l2) body st
  = match for_each l1 body st with
    | (Ok _, st') => for_each l2 body st'
    | (Raise e, st') => (Raise e, st')
    end.
Proof.
  revert st. induction l1 as [| x l1 IH]; intros st; simpl.
  - reflexivity.
  - unfold bindM. destruct (body x st) as [[[] | e] st1].
    + apply IH.
    + reflexivity.
Qed.

Lemma iterrows_frame_of (l : list Txn) :
  iterrows (frame_of l)
  = map (fun t => combine txn_columns (txn_cells t)) l.
Proof.
  unfold iterrows, frame_of. simpl columns. simpl rows.
  rewrite (map_range_index (fun r => combine txn_columns r)).
  now rewrite map_map.
Qed.

Lemma validate_row_ok (t : Txn) (st : State) :
  fst (validate_row (combine txn_columns (txn_cells t)) st) = Ok tt.
Proof.
  unfold validate_row, bindM, lift. cbn.
  destruct (value_usd t <=? 0); reflexivity.
Qed.

Lemma for_each_ok {A} (l : list A) (body : A -> M unit) :
  (forall x st, In x l -> fst (body x st) = Ok tt) ->
  forall st, fst (for_each l body st) = Ok tt.
Proof.
  induction l as [| x l IH]; intros Hbody st.
  - reflexivity.
  - cbn [for_each]. unfold bindM.
    pose proof (Hbody x st (or_introl eq_refl)) as Hx.
    destruct (body x st) as [[[] | e] st1]; simpl in Hx.
    + apply IH. intros y st' Hy. apply Hbody. now right.
    + discriminate.
Qed.

Lemma validate_frame_of_ok (l : list Txn) (st : State) :
  fst (validate_transaction_data (frame_of l) st) = Ok tt.
Proof.
  unfold validate_transaction_data. rewrite iterrows_frame_of.
  apply for_each_ok. intros row st' Hin.
  apply in_map_iff in Hin. destruct Hin as (t & <- & _).
  apply validate_row_ok.
Qed.

Lemma frame_of_not_empty (l : list Txn) :
  l <> [] -> empty (frame_of l) = false.
Proof.
  destruct l as [| t l]; [contradiction | reflexivity].
Qed.

End CryptoPass.

(** *** The crypto pass never gets past its detectors *)

Section CryptoDefects.
Import Pandas Crypto.

Lemma not_ok_bind {A B} (c : M A) (k : A -> M B) :
  (forall a s, is_ok (fst (k a s)) = false) ->
  forall s, is_ok (fst (bindM c k s)) = false.
Proof.
  intros Hk s. unfold bindM.
  destruct (c s) as [[a | e] s']; [apply Hk | reflexivity].
Qed.

(** X1.  The scorer returns no score, for any configuration, row and
    state: its detector call on the empty frame raises, or skips and
    hands back a frame without a [transaction_id] column. *)
Theorem calculate_risk_score_always_raises (cfg : Config) (row : Row)
    (st : State) :
  is_ok (fst (calculate_risk_score cfg row st)) = false.
Proof.
  unfold calculate_risk_score.
  do 5 (apply not_ok_bind; intros ? ?).
  unfold detect_complex_patterns.
  change (len DataFrame_empty) with 0.
  destruct (GRAPH_ANALYSIS_LIMIT cfg <? 0); reflexivity.
Qed.

Lemma sort_by_nonempty {A} (leb : A -> A -> bool) (l : list A) :
  l <> [] -> sort_by leb l <> [].
Proof.
  destruct l as [| x l]; [contradiction |]. intros _. simpl.
  destruct (sort_by leb l) as [| y s]; simpl; [discriminate |].
  destruct (leb x y); discriminate.
Qed.

Lemma diff_columns (df df' : DataFrame) :
  diff df = Ok df' -> columns df' = columns df.
Proof.
  unfold diff. destruct (rows df) as [| r rs].
  - intros H. now inversion H.
  - destruct (diff_rows (snd r) rs) as [ds | e]; simpl; intros H.
    + now inversion H.
    + discriminate.
Qed.

Lemma gap_below_ten_minutes_raises (x : DataFrame) :
  columns x = txn_columns ->
  is_ok (gap_below_ten_minutes x) = false.
Proof.
  intros Hcols. unfold gap_below_ten_minutes, set_index.
  rewrite Hcols. cbn [find_col txn_columns String.eqb Ascii.eqb Bool.eqb
                      option_map bind].
  simpl find_col. cbn [bind].
  destruct (diff _) as [x2 | e] eqn:Hdiff; [| reflexivity].
  apply diff_columns in Hdiff. simpl in Hdiff.
  cbn [bind]. unfold getattr. rewrite Hdiff. reflexivity.
Qed.

Lemma detect_frequent_raises (l : list Txn) (st : State) :
  l <> [] ->
  is_ok (fst (detect_frequent_transactions (frame_of l) st)) = false.
Proof.
  intros Hne. unfold detect_frequent_transactions.
  unfold bindM at 1. unfold lift at 1.
  assert (is_ok (groupby_apply (frame_of l) "from_address"
                   gap_below_ten_minutes) = false) as Hraise.
  { unfold groupby_apply, groupby. simpl find_col. cbn [bind].
    set (keys := sort_by value_leb _).
    assert (keys <> []) as Hkeys.
    { apply sort_by_nonempty.
      destruct l as [| t l']; [contradiction |]. simpl. discriminate. }
    destruct keys as [| k ks]; [contradiction |].
    cbn [map mapM bind fst snd].
    match goal with
    | |- context [gap_below_ten_minutes ?g] =>
        pose proof (gap_below_ten_minutes_raises g eq_refl) as Hg;
        destruct (gap_below_ten_minutes g)
    end; [discriminate | reflexivity]. }
  destruct (groupby_apply _ _ _); [discriminate | reflexivity].
Qed.

(** X2.  On every non-empty batch read from the store the frequency
    detector raises. *)
Theorem detect_frequent_transactions_always_raises (l : list Txn)
    (st : State) :
  l <> [] ->
  is_ok (fst (detect_frequent_transactions (frame_of l) st)) = false.
Proof. exact (detect_frequent_raises l st). Qed.

Lemma detect_frequent_transactions_always_raises_witness :
  is_ok (fst (detect_frequent_transactions
                (frame_of CryptoSamples.burst)
                (CryptoSamples.store CryptoSamples.burst []))) = false.
Proof.
  apply (detect_frequent_transactions_always_raises CryptoSamples.burst).
  discriminate.
Defined.

Lemma detect_frequent_transactions_neutral (df : DataFrame) :
  preserves db (detect_frequent_transactions df).
Proof.
  unfold detect_frequent_transactions.
  apply preserves_bind; [apply preserves_lift | intros stacked].
  apply preserves_bind; [apply preserves_lift | intros flat].
  apply preserves_bind; [apply preserves_lift | intros flagged].
  apply preserves_bind; [apply preserves_emit | intros _].
  apply preserves_ret.
Qed.

Lemma flagged_high_risk_ok (cfg : Config) (l : list Txn) :
  is_ok (flagged_high_risk cfg (frame_of l)) = true.
Proof. reflexivity. Qed.

Lemma analyze_transactions_stops (cfg : Config) (st : State) :
  unprocessed st <> [] ->
  exists s,
    analyze_transactions cfg st
    = snd (emit (LogError "Error analyzing transactions") s) /\
    db s = db st.
Proof.
  intros Hne.
  unfold analyze_transactions, analyze_transactions_with.
  rewrite (frame_of_not_empty _ Hne).
  set (transactions := frame_of (unprocessed st)).
  unfold try_except, analyze_body. unfold bindM at 1.
  pose proof (validate_frame_of_ok (unprocessed st) st) as Hval.
  pose proof (validate_neutral transactions st) as Hdb0.
  fold transactions in Hval.
  destruct (validate_transaction_data transactions st)
    as [[[] | ev] s0]; simpl in Hval, Hdb0; [| discriminate].
  unfold bindM at 1. unfold flag_all.
  unfold bindM at 1. unfold lift at 1.
  unfold transactions at 1. rewrite flagged_threshold_frame_of.
  unfold bindM at 1. unfold lift at 1.
  pose proof (flagged_high_risk_ok cfg (unprocessed st)) as Hrisk.
  fold transactions in Hrisk.
  destruct (flagged_high_risk cfg transactions) as [hr | e];
    [| discriminate].
  unfold bindM at 1.
  pose proof (detect_frequent_raises (unprocessed st) s0 Hne) as Hfreq.
  pose proof (detect_frequent_transactions_neutral transactions s0)
    as Hdb1.
  fold transactions in Hfreq.
  destruct (detect_frequent_transactions transactions s0)
    as [[ff | e] s1]; simpl in Hfreq, Hdb1; [discriminate |].
  exists s1. split; [reflexivity | congruence].
Qed.

Lemma analyze_transactions_db (cfg : Config) (st : State) :
  db (analyze_transactions cfg st) = db st.
Proof.
  destruct (unprocessed st) as [| t0 l0] eqn:Hbatch.
  - unfold analyze_transactions, analyze_transactions_with.
    now rewrite Hbatch.
  - destruct (analyze_transactions_stops cfg st) as (s & -> & Hdb).
    + rewrite Hbatch. discriminate.
    + exact Hdb.
Qed.

(** X3.  A crypto pass over a non-empty batch, for any configuration
    and store, ends in the error line of its [except] clause and leaves
    every table as it was: no alert is stored and nothing is marked
    processed. *)
Theorem crypto_pass_changes_nothing (cfg : Config) (st : State) :
  unprocessed st <> [] ->
  db (analyze_transactions cfg st) = db st /\
  unprocessed (analyze_transactions cfg st) = unprocessed st /\
  exists warnings,
    trace (analyze_transactions cfg st)
    = warnings ++ [LogError "Error analyzing transactions"].
Proof.
  intros Hne.
  destruct (analyze_transactions_stops cfg st Hne) as (s & Hrun & Hdb).
  rewrite Hrun. repeat split.
  - exact Hdb.
  - unfold unprocessed. simpl. unfold db in Hdb. congruence.
  - exists (trace s). reflexivity.
Qed.

Lemma crypto_pass_changes_nothing_witness :
  db (analyze_transactions config (CryptoSamples.store CryptoSamples.chain []))
  = db (CryptoSamples.store CryptoSamples.chain []) /\
  unprocessed (analyze_transactions config
                 (CryptoSamples.store CryptoSamples.chain []))
  = unprocessed (CryptoSamples.store CryptoSamples.chain []) /\
  exists warnings,
    trace (analyze_transactions config
             (CryptoSamples.store CryptoSamples.chain []))
    = warnings ++ [LogError "Error analyzing transactions"].
Proof.
  apply (crypto_pass_changes_nothing config
           (CryptoSamples.store CryptoSamples.chain [])).
  vm_compute. discriminate.
Defined.

End CryptoDefects.

(** *** A scoring error ends the crypto pass *)

(** C10.  Lines 68 to 75 of the crypto pass, with any scorer that
    leaves the tables alone, started on any flagged frame: when the rows
    [pre] have been scored and alerted and scoring the next row raises,
    the [except] clause ends the pass there with its error line; the
    alerts are those stored for [pre], nothing is marked, and the
    transactions table is as before, so the same batch is read next
    time.  The scorer of the source meets this on the first flagged
    row.  The pass of the source as a whole stores no alert and marks
    nothing, whatever the store. *)
Theorem scoring_error_aborts_pass :
  (forall (risk_score_of : Pandas.Row -> Crypto.M Z)
          (all_flagged transactions : Pandas.DataFrame)
          (pre post : list Pandas.Row) (row : Pandas.Row) (e : exn)
          (s s2 s3 : Crypto.State),
      (forall r, Crypto.preserves Crypto.db (risk_score_of r)) ->
      Pandas.iterrows all_flagged = pre ++ row :: post ->
      Crypto.for_each pre (Crypto.alert_row risk_score_of) s = (Ok tt, s2) ->
      risk_score_of row s2 = (Raise e, s3) ->
      let st' := Crypto.try_except
                   (Crypto.alert_and_mark risk_score_of all_flagged
                      transactions)
                   "Error analyzing transactions" s in
      Crypto.crypto_transactions st' = Crypto.crypto_transactions s /\
      Crypto.unprocessed st' = Crypto.unprocessed s /\
      Crypto.crypto_alerts st' = Crypto.crypto_alerts s2 /\
      Crypto.trace st'
      = Crypto.trace s3 ++ [Crypto.LogError "Error analyzing transactions"]) /\
  (forall cfg st,
      let st' := Crypto.analyze_transactions cfg st in
      Crypto.crypto_alerts st' = Crypto.crypto_alerts st /\
      Crypto.crypto_transactions st' = Crypto.crypto_transactions st /\
      Crypto.unprocessed st' = Crypto.unprocessed st).
Proof.
  split.
  - intros risk_score_of all_flagged transactions pre post row e s s2 s3
           Hscore Hrows Hpre Hraise st'.
    assert (st' = snd (Crypto.emit
                         (Crypto.LogError "Error analyzing transactions")
                         s3)) as ->.
    { subst st'. unfold Crypto.try_except, Crypto.alert_and_mark.
      unfold Crypto.bindM at 1.
      unfold Crypto.alert_flagged. rewrite Hrows, for_each_app, Hpre.
      cbn [Crypto.for_each]. unfold Crypto.bindM at 1.
      unfold Crypto.alert_row at 1. unfold Crypto.bindM at 1.
      rewrite Hraise. reflexivity. }
    assert (Crypto.crypto_transactions s3 = Crypto.crypto_transactions s)
      as Htx.
    { pose proof (preserves_db_transactions _ (Hscore row) s2) as H3.
      rewrite Hraise in H3. simpl in H3.
      pose proof (preserves_for_each Crypto.crypto_transactions pre _
                    (alert_row_keeps_transactions risk_score_of Hscore) s)
        as H2.
      rewrite Hpre in H2. simpl in H2. congruence. }
    assert (Crypto.crypto_alerts s3 = Crypto.crypto_alerts s2) as Hal.
    { pose proof (preserves_db_alerts _ (Hscore row) s2) as H3.
      rewrite Hraise in H3. exact H3. }
    simpl. repeat split.
    + exact Htx.
    + unfold Crypto.unprocessed. simpl. now rewrite Htx.
    + exact Hal.
  - intros cfg st st'. subst st'.
    pose proof (analyze_transactions_db cfg st) as Hdb.
    unfold Crypto.db in Hdb. inversion Hdb as [[Htx Hal Har Hex Hf]].
    repeat split. unfold Crypto.unprocessed. now rewrite Htx.
Qed.

Lemma scoring_error_aborts_pass_witness :
  let s := CryptoSamples.store CryptoSamples.chain [] in
  let st' := Crypto.try_except
               (Crypto.alert_and_mark
                  (Crypto.calculate_risk_score Crypto.config)
                  (Crypto.frame_of CryptoSamples.chain)
                  (Crypto.frame_of CryptoSamples.chain))
               "Error analyzing transactions" s in
  Crypto.crypto_transactions st' = Crypto.crypto_transactions s /\
  Crypto.unprocessed st' = Crypto.unprocessed s /\
  Crypto.crypto_alerts st' = Crypto.crypto_alerts s /\
  Crypto.trace st'
  = Crypto.trace s ++ [Crypto.LogError "Error analyzing transactions"].
Proof.
  intros s st'.
  destruct scoring_error_aborts_pass as [Hblock _].
  apply (Hblock (Crypto.calculate_risk_score Crypto.config)
           (Crypto.frame_of CryptoSamples.chain)
           (Crypto.frame_of CryptoSamples.chain)
           []
           (tl (Pandas.iterrows (Crypto.frame_of CryptoSamples.chain)))
           (hd [] (Pandas.iterrows (Crypto.frame_of CryptoSamples.chain)))
           NetworkXError s s s).
  - intros r. apply calculate_risk_score_neutral.
  - vm_compute. reflexivity.
  - reflexivity.
  - vm_compute. reflexivity.
Defined.

(** *** The graph detector never returns an id *)

Section GraphIds.
Import Pandas Nx Crypto.

Lemma attrs_get_missing (d : attrs) :
  only_value_usd d -> attrs_get d "transaction_id" = VNull.
Proof.
  intros Hd. unfold attrs_get.
  destruct (find (fun kv => String.eqb "transaction_id" (fst kv)) d)
    as [kv |] eqn:Hfind; [| reflexivity].
  apply find_some in Hfind. destruct Hfind as [Hin Heq].
  rewrite (Hd kv Hin) in Heq. discriminate.
Qed.

Lemma attrs_update_only (old new : attrs) :
  only_value_usd old -> only_value_usd new ->
  only_value_usd (attrs_update old new).
Proof.
  intros Ho Hn kv Hin. unfold attrs_update in Hin.
  apply in_app_or in Hin. destruct Hin as [Hin | Hin].
  - apply filter_In in Hin. now apply Ho.
  - now apply Hn.
Qed.

Lemma adj_get_only (nbrs : list (value * attrs)) (v : value) (d : attrs) :
  (forall nb, In nb nbrs -> only_value_usd (snd nb)) ->
  adj_get nbrs v = Some d -> only_value_usd d.
Proof.
  induction nbrs as [| [w d'] nbrs IH]; simpl; intros Hall Hget.
  - discriminate.
  - destruct (value_eqb v w).
    + inversion Hget; subst. apply (Hall (w, d)). now left.
    + apply IH; [| assumption]. intros nb Hnb. apply Hall. now right.
Qed.

Lemma adj_set_only (nbrs : list (value * attrs)) (v : value) (d : attrs) :
  (forall nb, In nb nbrs -> only_value_usd (snd nb)) ->
  only_value_usd d ->
  forall nb, In nb (adj_set nbrs v d) -> only_value_usd (snd nb).
Proof.
  induction nbrs as [| [w d'] nbrs IH]; simpl; intros Hall Hd nb Hnb.
  - destruct Hnb as [<- | []]. exact Hd.
  - destruct (value_eqb v w); simpl in Hnb.
    + destruct Hnb as [<- | Hnb]; [exact Hd |]. apply Hall. now right.
    + destruct Hnb as [<- | Hnb].
      * apply (Hall (w, d')). now left.
      * apply IH; [| assumption | assumption].
        intros nb' Hnb'. apply Hall. now right.
Qed.

Lemma add_node_only (g : Graph) (n : value) :
  edges_only_value_usd g -> edges_only_value_usd (add_node g n).
Proof.
  intros Hg. unfold add_node. destruct (has_node g n); [exact Hg |].
  intros e He. apply in_app_or in He. destruct He as [He | [<- | []]].
  - now apply Hg.
  - intros nb [].
Qed.

Lemma neighbors_only (g : Graph) (n : value) :
  edges_only_value_usd g ->
  forall nb, In nb (neighbors g n) -> only_value_usd (snd nb).
Proof.
  intros Hg nb. unfold neighbors.
  destruct (find (fun e => value_eqb n (fst e)) g) as [e |] eqn:Hfind.
  - apply find_some in Hfind. destruct Hfind as [Hin _]. now apply Hg.
  - intros [].
Qed.

Lemma add_edge_only (g g' : Graph) (u v : value) (d : attrs) :
  edges_only_value_usd g -> only_value_usd d ->
  add_edge g u v d = Ok g' -> edges_only_value_usd g'.
Proof.
  intros Hg Hd. unfold add_edge.
  destruct (value_eqb u VNull || value_eqb v VNull); [discriminate |].
  intros Hadd. inversion Hadd as [Hg']. clear Hadd Hg'.
  set (g1 := add_node (add_node g u) v).
  assert (edges_only_value_usd g1) as Hg1
    by (apply add_node_only, add_node_only, Hg).
  set (datadict := attrs_update _ d).
  assert (only_value_usd datadict) as Hdd.
  { apply attrs_update_only; [| exact Hd].
    destruct (adj_get (neighbors g1 u) v) as [old |] eqn:Hget.
    - apply (adj_get_only (neighbors g1 u) v); [| exact Hget].
      now apply neighbors_only.
    - intros kv []. }
  assert (forall a b (h : Graph),
             edges_only_value_usd h ->
             edges_only_value_usd
               (map (fun e => if value_eqb a (fst e)
                              then (fst e, adj_set (snd e) b datadict)
                              else e) h)) as Hset.
  { intros a b h Hh e He. apply in_map_iff in He.
    destruct He as (e0 & <- & He0).
    destruct (value_eqb a (fst e0)); simpl.
    - apply adj_set_only; [now apply Hh | exact Hdd].
    - now apply Hh. }
  apply Hset, Hset, Hg1.
Qed.

Lemma add_edges_only (es : list (value * value * attrs)) (g g' : Graph) :
  edges_only_value_usd g ->
  (forall e, In e es -> only_value_usd (snd e)) ->
  add_edges g es = Ok g' -> edges_only_value_usd g'.
Proof.
  revert g. induction es as [| [[u v] d] es IH]; simpl; intros g Hg Hes Hadd.
  - now inversion Hadd; subst.
  - destruct (add_edge g u v d) as [g1 |] eqn:Hone; simpl in Hadd;
      [| discriminate].
    apply (IH g1); [| | exact Hadd].
    + apply (add_edge_only g g1 u v d); [exact Hg | | exact Hone].
      apply (Hes (u, v, d)). now left.
    + intros e He. apply Hes. now right.
Qed.

Lemma from_pandas_edgelist_only (df : DataFrame) (g : Graph) :
  from_pandas_edgelist df "from_address" "to_address" ["value_usd"] = Ok g ->
  edges_only_value_usd g.
Proof.
  unfold from_pandas_edgelist.
  destruct (mapM (getitem df) ["value_usd"]) as [cols |]; [| discriminate].
  destruct (getitem df "from_address") as [src |]; [| discriminate].
  destruct (getitem df "to_address") as [tgt |]; [| discriminate].
  cbn [bind]. apply add_edges_only.
  - intros e [].
  - intros [ends d] He. apply in_combine_r in He. apply in_map_iff in He.
    destruct He as (j & <- & _).
    intros [k x] Hkv. apply in_combine_l in Hkv.
    destruct Hkv as [<- | []]. reflexivity.
Qed.

Lemma edges_from_only (sub : list value) (g : Graph) (seen : list value) :
  edges_only_value_usd g ->
  forall e, In e (edges_from sub g seen) -> only_value_usd (snd e).
Proof.
  revert seen. induction g as [| [n nbrs] g IH]; simpl; intros seen Hg e He.
  - contradiction.
  - assert (edges_only_value_usd g) as Hg'
      by (intros x Hx; apply Hg; now right).
    destruct (mem value_eqb n sub).
    + apply in_app_or in He. destruct He as [He | He].
      * apply in_map_iff in He. destruct He as (nb & <- & Hnb).
        apply filter_In in Hnb. destruct Hnb as [Hnb _]. simpl.
        apply (Hg (n, nbrs)); [now left | exact Hnb].
      * now apply (IH (n :: seen)).
    + now apply (IH seen).
Qed.

(** X4.  Whatever the batch and the configuration, every row the graph
    detector returns has a null [transaction_id]. *)
Theorem detect_complex_patterns_ids_null (cfg : Config) (df out : DataFrame)
    (st : State) (ids : list value) :
  fst (detect_complex_patterns cfg df st) = Ok out ->
  getitem out "transaction_id" = Ok ids ->
  Forall (fun v => v = VNull) ids.
Proof.
  unfold detect_complex_patterns.
  destruct (GRAPH_ANALYSIS_LIMIT cfg <? len df).
  - simpl. intros Hout. inversion Hout; subst. discriminate.
  - unfold bindM at 1. unfold lift at 1.
    destruct (from_pandas_edgelist df "from_address" "to_address"
                ["value_usd"]) as [G |] eqn:HG; [| discriminate].
    apply from_pandas_edgelist_only in HG.
    simpl. intros Hout. inversion Hout; subst. clear Hout.
    unfold getitem. simpl. intros Hids. inversion Hids; subst. clear Hids.
    apply Forall_forall. intros v Hv.
    rewrite (map_range_index (fun r => nth 2 r VNull)) in Hv.
    rewrite map_map in Hv. apply in_map_iff in Hv.
    destruct Hv as ([[a b] d] & <- & He). simpl.
    apply attrs_get_missing.
    apply in_flat_map in He. destruct He as (cluster & _ & He).
    destruct (FREQUENT_TXN_LIMIT cfg <? Z.of_nat (List.length cluster));
      [| contradiction].
    apply (edges_from_only cluster G [] HG (a, b, d) He).
Qed.

Lemma detect_complex_patterns_ids_null_witness :
  Forall (fun v => v = VNull) [VNull; VNull; VNull; VNull; VNull].
Proof.
  apply (detect_complex_patterns_ids_null config
           (frame_of CryptoSamples.chain)
           (match fst (detect_complex_patterns config
                         (frame_of CryptoSamples.chain)
                         (CryptoSamples.store CryptoSamples.chain [])) with
            | Ok df => df
            | Raise _ => DataFrame_empty
            end)
           (CryptoSamples.store CryptoSamples.chain [])).
  - vm_compute. reflexivity.
  - vm_compute. reflexivity.
Defined.

End GraphIds.

(** *** The rapid-succession rule of the fiat query *)

Section SortFacts.
Context {A : Type} (leb : A -> A -> bool).
Hypothesis leb_total : forall a b, leb a b = true \/ leb b a = true.
Hypothesis leb_trans :
  forall a b c, leb a b = true -> leb b c = true -> leb a c = true.

Lemma insert_sorted_perm (x : A) (l : list A) :
  Permutation (insert_sorted leb x l) (x :: l).
Proof.
  induction l as [| y l IH]; simpl.
  - apply Permutation_refl.
  - destruct (leb x y).
    + apply Permutation_refl.
    + apply perm_trans with (y :: x :: l).
      * now apply perm_skip.
      * apply perm_swap.
Qed.

Lemma sort_by_perm (l : list A) : Permutation (sort_by leb l) l.
Proof.
  induction l as [| x l IH]; simpl.
  - apply perm_nil.
  - apply perm_trans with (x :: sort_by leb l).
    + apply insert_sorted_perm.
    + now apply perm_skip.
Qed.

Lemma insert_sorted_sorted (x : A) (l : list A) :
  StronglySorted (holds leb) l ->
  StronglySorted (holds leb) (insert_sorted leb x l).
Proof.
  induction l as [| y l IH]; simpl; intros Hl.
  - constructor; constructor.
  - apply StronglySorted_inv in Hl. destruct Hl as [Hl Hy].
    destruct (leb x y) eqn:Hxy.
    + constructor.
      * now constructor.
      * constructor; [exact Hxy |].
        apply Forall_forall. intros z Hz.
        apply (leb_trans x y z); [exact Hxy |].
        now apply (proj1 (Forall_forall _ _) Hy).
    + constructor.
      * now apply IH.
      * apply Forall_forall. intros z Hz.
        apply (Permutation_in _ (insert_sorted_perm x l)) in Hz.
        destruct Hz as [<- | Hz].
        -- destruct (leb_total x y) as [H | H]; [congruence | exact H].
        -- now apply (proj1 (Forall_forall _ _) Hy).
Qed.

Lemma sort_by_sorted (l : list A) : StronglySorted (holds leb) (sort_by leb l).
Proof.
  induction l as [| x l IH]; simpl.
  - constructor.
  - now apply insert_sorted_sorted.
Qed.

Lemma sorted_before (l1 l2 : list A) (x a : A) :
  StronglySorted (holds leb) (l1 ++ x :: l2) -> In a l1 -> leb a x = true.
Proof.
  induction l1 as [| y l1 IH]; simpl; intros Hs Ha.
  - contradiction.
  - apply StronglySorted_inv in Hs. destruct Hs as [Hs Hy].
    destruct Ha as [<- | Ha].
    + apply (proj1 (Forall_forall _ _) Hy). apply in_or_app. right. now left.
    + now apply IH.
Qed.

Lemma sorted_after (l1 l2 : list A) (x a : A) :
  StronglySorted (holds leb) (l1 ++ x :: l2) -> In a l2 -> leb x a = true.
Proof.
  induction l1 as [| y l1 IH]; simpl; intros Hs Ha.
  - apply StronglySorted_inv in Hs. destruct Hs as [_ Hx].
    now apply (proj1 (Forall_forall _ _) Hx).
  - apply StronglySorted_inv in Hs. destruct Hs as [Hs _]. now apply IH.
Qed.

End SortFacts.

Lemma NoDup_map_eq {A B} (f : A -> B) (l : list A) (a b : A) :
  NoDup (map f l) -> In a l -> In b l -> f a = f b -> a = b.
Proof.
  induction l as [| x l IH]; simpl; intros Hnd Ha Hb Hf; [contradiction |].
  inversion Hnd as [| ? ? Hx Hl]; subst.
  destruct Ha as [-> | Ha], Hb as [-> | Hb].
  - reflexivity.
  - exfalso. apply Hx. rewrite Hf. now apply in_map.
  - exfalso. apply Hx. rewrite <- Hf. now apply in_map.
  - now apply IH.
Qed.

Section FiatRapidSuccession.
Import Fiat.

Lemma window_leb_spec (a b : Txn) :
  window_leb a b = true <->
  account_id a < account_id b \/
  (account_id a = account_id b /\ transaction_date a <= transaction_date b).
Proof.
  unfold window_leb.
  rewrite orb_true_iff, andb_true_iff, Z.ltb_lt, Z.eqb_eq, Z.leb_le.
  reflexivity.
Qed.

Lemma window_leb_total (a b : Txn) :
  window_leb a b = true \/ window_leb b a = true.
Proof. rewrite !window_leb_spec. lia. Qed.

Lemma window_leb_trans (a b c : Txn) :
  window_leb a b = true -> window_leb b c = true -> window_leb a c = true.
Proof. rewrite !window_leb_spec. lia. Qed.

Lemma lag_fst (prev : option Txn) (l : list Txn) :
  map fst (lag prev l) = l.
Proof.
  revert prev. induction l as [| t l IH]; intros prev; simpl.
  - reflexivity.
  - now rewrite IH.
Qed.

(** The lagged date of a row is the date of the row just before it in
    the sorted list, when both are of one account. *)
Lemma lag_adjacent (prev : option Txn) (l1 l2 : list Txn) (q t : Txn) :
  In (t, if account_id q =? account_id t
         then Some (transaction_date q) else None)
     (lag prev (l1 ++ q :: t :: l2)).
Proof.
  revert prev. induction l1 as [| x l1 IH]; intros prev; simpl.
  - right. left. reflexivity.
  - right. apply IH.
Qed.

Lemma lag_some (l : list Txn) (prev : option Txn) (t : Txn) (d : Z) :
  In (t, Some d) (lag prev l) ->
  exists q,
    account_id q = account_id t /\ d = transaction_date q /\
    ((prev = Some q /\ exists l2, l = t :: l2) \/
     exists l1 l2, l = l1 ++ q :: t :: l2).
Proof.
  revert prev. induction l as [| x l IH]; intros prev; simpl; intros Hin.
  - contradiction.
  - destruct Hin as [Heq | Hin].
    + inversion Heq as [[Hx Hd]]. subst x.
      destruct prev as [p |]; [| discriminate].
      destruct (account_id p =? account_id t) eqn:Hacc; [| discriminate].
      inversion Hd; subst d. exists p.
      repeat split; [now apply Z.eqb_eq |].
      left. split; [reflexivity | now exists l].
    + destruct (IH (Some x) Hin) as (q & Hacc & Hd & Hpos).
      exists q. repeat split; [exact Hacc | exact Hd |].
      right. destruct Hpos as [[Hprev [l2 Hl]] | (l1 & l2 & Hl)].
      * inversion Hprev; subst. now exists [], l2.
      * exists (x :: l1), l2. now rewrite Hl.
Qed.

Lemma rapid_succession_predecessor (table : list Txn) (t : Txn) :
  NoDup (map transaction_id table) ->
  In t table ->
  In (flag "Rapid Succession" t) (rapid_succession table) ->
  exists p,
    In p table /\ transaction_id p <> transaction_id t /\
    account_id p = account_id t /\
    transaction_date p <= transaction_date t /\
    transaction_date t - transaction_date p < 60.
Proof.
  intros Hnd Ht Hflag. unfold rapid_succession in Hflag.
  set (sorted := sort_by window_leb table) in *.
  pose proof (sort_by_perm window_leb table) as Hperm. fold sorted in Hperm.
  pose proof (sort_by_sorted window_leb window_leb_total window_leb_trans
                table) as Hsorted. fold sorted in Hsorted.
  apply in_map_iff in Hflag. destruct Hflag as ([t' od] & Hid & Hr).
  apply filter_In in Hr. destruct Hr as [Hr Hgap]. simpl in Hid, Hgap.
  assert (In t' sorted) as Ht'.
  { rewrite <- (lag_fst None sorted). now apply (in_map fst) in Hr. }
  assert (t' = t) as ->.
  { apply (NoDup_map_eq transaction_id table); [exact Hnd | | exact Ht |].
    - now apply (Permutation_in _ Hperm).
    - unfold flag in Hid. now inversion Hid. }
  destruct od as [d |]; [| discriminate].
  apply Z.ltb_lt in Hgap.
  destruct (lag_some sorted None t d Hr) as (q & Hacc & Hd & Hpos).
  destruct Hpos as [[Hnone _] | (l1 & l2 & Hl)]; [discriminate |].
  exists q. subst d.
  assert (NoDup (map transaction_id sorted)) as Hnd'.
  { apply (Permutation_NoDup (l := map transaction_id table));
      [apply Permutation_map, Permutation_sym, Hperm | exact Hnd]. }
  repeat split.
  - apply (Permutation_in _ Hperm). rewrite Hl.
    apply in_or_app. right. now left.
  - rewrite Hl, map_app in Hnd'. simpl in Hnd'.
    apply NoDup_remove_2 in Hnd'. intros Heq. apply Hnd'.
    apply in_or_app. right. left. now symmetry.
  - exact Hacc.
  - rewrite Hl in Hsorted.
    pose proof (sorted_after window_leb l1 (t :: l2) q t Hsorted
                  (or_introl eq_refl)) as Hqt.
    apply window_leb_spec in Hqt. lia.
  - exact Hgap.
Qed.

(** X5.  A transaction flagged by [rapid_succession] has another
    transaction of its account no later than itself and less than 60
    seconds before it. *)
Theorem rapid_succession_sound (table : list Txn) (t : Txn) :
  NoDup (map transaction_id table) ->
  In t table ->
  In (flag "Rapid Succession" t) (rapid_succession table) ->
  exists p,
    In p table /\ transaction_id p <> transaction_id t /\
    account_id p = account_id t /\
    transaction_date p <= transaction_date t /\
    transaction_date t - transaction_date p < 60.
Proof. exact (rapid_succession_predecessor table t). Qed.

(** X6.  The query subtracts whole seconds.  A transaction is flagged
    by [rapid_succession] when its account has a transaction in a
    strictly earlier second, fewer than 60 whole seconds before its
    own.  (Two timestamps 59.2 s apart whose seconds differ by 60 do
    not meet this, and the query does not flag them.) *)
Theorem rapid_succession_complete (table : list Txn) (t p : Txn) :
  In t table -> In p table ->
  account_id p = account_id t ->
  transaction_date p < transaction_date t ->
  transaction_date t - transaction_date p < 60 ->
  In (flag "Rapid Succession" t) (rapid_succession table).
Proof.
  intros Ht Hp Hacc Hbefore Hgap. unfold rapid_succession.
  set (sorted := sort_by window_leb table).
  pose proof (sort_by_perm window_leb table) as Hperm. fold sorted in Hperm.
  pose proof (sort_by_sorted window_leb window_leb_total window_leb_trans
                table) as Hsorted. fold sorted in Hsorted.
  apply (Permutation_in _ (Permutation_sym Hperm)) in Ht, Hp.
  destruct (in_split _ _ Ht) as (l1 & l2 & Hl).
  rewrite Hl in Hp, Hsorted.
  assert (In p l1) as Hp1.
  { apply in_app_or in Hp. destruct Hp as [Hp | [Hp | Hp]].
    - exact Hp.
    - subst p. lia.
    - pose proof (sorted_after window_leb l1 l2 t p Hsorted Hp) as Htp.
      apply window_leb_spec in Htp. lia. }
  destruct (exists_last (l := l1)) as (l0 & q & Hl1).
  { intros ->. contradiction. }
  subst l1. rewrite <- app_assoc in Hl, Hsorted. simpl in Hl, Hsorted.
  pose proof (sorted_after window_leb l0 (t :: l2) q t Hsorted
                (or_introl eq_refl)) as Hqt.
  apply window_leb_spec in Hqt.
  assert (account_id p = account_id q /\
          transaction_date p <= transaction_date q) as [Hpq Hdate].
  { apply in_app_or in Hp1. destruct Hp1 as [Hp0 | [<- | []]].
    - pose proof (sorted_before window_leb l0 (t :: l2) q p Hsorted Hp0)
        as Hpq.
      apply window_leb_spec in Hpq. lia.
    - lia. }
  apply in_map_iff. exists (t, Some (transaction_date q)). split.
  - reflexivity.
  - apply filter_In. split.
    + rewrite Hl.
      pose proof (lag_adjacent None l0 l2 q t) as Hadj.
      replace (account_id q =? account_id t) with true in Hadj
        by (symmetry; apply Z.eqb_eq; lia).
      exact Hadj.
    + simpl. apply Z.ltb_lt. lia.
Qed.

(** X7.  The earliest transaction of an account, when it is strictly
    the earliest, is not flagged by [rapid_succession]. *)
Theorem rapid_succession_spares_first (table : list Txn) (t : Txn) :
  NoDup (map transaction_id table) ->
  In t table ->
  (forall u, In u table -> account_id u = account_id t ->
             transaction_id u <> transaction_id t ->
             transaction_date t < transaction_date u) ->
  ~ In (flag "Rapid Succession" t) (rapid_succession table).
Proof.
  intros Hnd Ht Hfirst Hflag.
  destruct (rapid_succession_predecessor table t Hnd Ht Hflag)
    as (p & Hp & Hid & Hacc & Hle & _).
  specialize (Hfirst p Hp Hacc Hid). lia.
Qed.

Example rapid_succession_burst :
  rapid_succession FiatSamples.burst
  = [flag "Rapid Succession" (FiatSamples.txn 12 7 250 1030 "France" 3 false)].
Proof. vm_compute. reflexivity. Qed.

Lemma burst_ids_distinct : NoDup (map transaction_id FiatSamples.burst).
Proof.
  vm_compute.
  repeat (constructor; [intros H; repeat destruct H as [H | H];
                        try discriminate H; try contradiction |]).
  constructor.
Qed.

Lemma rapid_succession_sound_witness :
  exists p,
    In p FiatSamples.burst /\
    transaction_id p <> 12 /\ account_id p = 7 /\
    transaction_date p <= 1030 /\ 1030 - transaction_date p < 60.
Proof.
  apply (rapid_succession_sound FiatSamples.burst
           (FiatSamples.txn 12 7 250 1030 "France" 3 false)).
  - exact burst_ids_distinct.
  - simpl. right. left. reflexivity.
  - vm_compute. left. reflexivity.
Defined.

Lemma rapid_succession_complete_witness :
  In (flag "Rapid Succession" (FiatSamples.txn 12 7 250 1030 "France" 3 false))
     (rapid_succession FiatSamples.burst).
Proof.
  apply (rapid_succession_complete FiatSamples.burst
           (FiatSamples.txn 12 7 250 1030 "France" 3 false)
           (FiatSamples.txn 11 7 250 1000 "France" 3 false)).
  - simpl. right. left. reflexivity.
  - simpl. left. reflexivity.
  - reflexivity.
  - simpl. lia.
  - simpl. lia.
Defined.

Lemma rapid_succession_spares_first_witness :
  ~ In (flag "Rapid Succession"
          (FiatSamples.txn 11 7 250 1000 "France" 3 false))
       (rapid_succession FiatSamples.burst).
Proof.
  apply (rapid_succession_spares_first FiatSamples.burst
           (FiatSamples.txn 11 7 250 1000 "France" 3 false)).
  - exact burst_ids_distinct.
  - simpl. left. reflexivity.
  - intros u Hu Hacc Hid.
    repeat destruct Hu as [<- | Hu]; simpl in *;
      try lia; try contradiction.
Defined.

End FiatRapidSuccession.

(** *** A store without new transactions *)

(** X8.  A fiat pass over a store whose transactions are all processed
    returns early: no alert is stored and no row changes. *)
Theorem fiat_pass_without_batch (cfg : Fiat.Config) (st : Fiat.State) :
  Fiat.unprocessed st = [] ->
  Fiat.alerts (Fiat.monitor_transactions cfg st) = Fiat.alerts st /\
  Fiat.transactions (Fiat.monitor_transactions cfg st) = Fiat.transactions st.
Proof.
  intros Hnone. unfold Fiat.monitor_transactions. rewrite Hnone.
  split; reflexivity.
Qed.

Lemma fiat_pass_without_batch_witness :
  Fiat.alerts (Fiat.monitor_transactions Fiat.config
                 (FiatSamples.store
                    [FiatSamples.txn 1 7 250 1000 "Iran" 3 true] []))
  = [] /\
  Fiat.transactions (Fiat.monitor_transactions Fiat.config
                       (FiatSamples.store
                          [FiatSamples.txn 1 7 250 1000 "Iran" 3 true] []))
  = [FiatSamples.txn 1 7 250 1000 "Iran" 3 true].
Proof.
  apply (fiat_pass_without_batch Fiat.config
           (FiatSamples.store
              [FiatSamples.txn 1 7 250 1000 "Iran" 3 true] [])).
  reflexivity.
Defined.

(** *** The size bound of the graph detector *)

(** X9.  On a batch with more rows than [GRAPH_ANALYSIS_LIMIT] the graph
    detector returns the empty frame without raising, and its only
    effect is the log line of the skip. *)
Theorem detect_complex_patterns_skips_large_batch (cfg : Crypto.Config)
    (df : Pandas.DataFrame) (st : Crypto.State) :
  Crypto.GRAPH_ANALYSIS_LIMIT cfg < Pandas.len df ->
  fst (Crypto.detect_complex_patterns cfg df st) = Ok Pandas.DataFrame_empty /\
  Crypto.db (snd (Crypto.detect_complex_patterns cfg df st)) = Crypto.db st /\
  Crypto.trace (snd (Crypto.detect_complex_patterns cfg df st))
  = Crypto.trace st
    ++ [Crypto.LogInfo
          "Skipping complex pattern detection due to large transaction set."].
Proof.
  intros Hbig. unfold Crypto.detect_complex_patterns.
  apply Z.ltb_lt in Hbig. rewrite Hbig.
  repeat split.
Qed.

Lemma detect_complex_patterns_skips_large_batch_witness :
  fst (Crypto.detect_complex_patterns
         {| Crypto.THRESHOLD_VALUE_USD := 10000;
            Crypto.HIGH_RISK_ADDRESSES := [];
            Crypto.FREQUENT_TXN_LIMIT := 5;
            Crypto.GRAPH_ANALYSIS_LIMIT := 3;
            Crypto.ARCHIVE_AGE_DAYS := 30 |}
         (Crypto.frame_of CryptoSamples.chain)
         (CryptoSamples.store CryptoSamples.chain []))
  = Ok Pandas.DataFrame_empty /\
  Crypto.db (snd (Crypto.detect_complex_patterns
                    {| Crypto.THRESHOLD_VALUE_USD := 10000;
                       Crypto.HIGH_RISK_ADDRESSES := [];
                       Crypto.FREQUENT_TXN_LIMIT := 5;
                       Crypto.GRAPH_ANALYSIS_LIMIT := 3;
                       Crypto.ARCHIVE_AGE_DAYS := 30 |}
                    (Crypto.frame_of CryptoSamples.chain)
                    (CryptoSamples.store CryptoSamples.chain [])))
  = Crypto.db (CryptoSamples.store CryptoSamples.chain []) /\
  Crypto.trace (snd (Crypto.detect_complex_patterns
                       {| Crypto.THRESHOLD_VALUE_USD := 10000;
                          Crypto.HIGH_RISK_ADDRESSES := [];
                          Crypto.FREQUENT_TXN_LIMIT := 5;
                          Crypto.GRAPH_ANALYSIS_LIMIT := 3;
                          Crypto.ARCHIVE_AGE_DAYS := 30 |}
                       (Crypto.frame_of CryptoSamples.chain)
                       (CryptoSamples.store CryptoSamples.chain [])))
  = Crypto.trace (CryptoSamples.store CryptoSamples.chain [])
    ++ [Crypto.LogInfo
          "Skipping complex pattern detection due to large transaction set."].
Proof.
  apply (detect_complex_patterns_skips_large_batch
           {| Crypto.THRESHOLD_VALUE_USD := 10000;
              Crypto.HIGH_RISK_ADDRESSES := [];
              Crypto.FREQUENT_TXN_LIMIT := 5;
              Crypto.GRAPH_ANALYSIS_LIMIT := 3;
              Crypto.ARCHIVE_AGE_DAYS := 30 |}
           (Crypto.frame_of CryptoSamples.chain)
           (CryptoSamples.store CryptoSamples.chain [])).
  vm_compute. reflexivity.
Defined.

(** *** The other rules of the fiat query *)

Section FiatRules.
Import Fiat.

Lemma ledger_ids_distinct : NoDup (map transaction_id MoreSamples.ledger).
Proof.
  repeat constructor; simpl; intuition discriminate.
Qed.

Lemma flag_filter_iff (kind : string) (p : Txn -> bool) (table : list Txn)
    (t : Txn) :
  NoDup (map transaction_id table) -> In t table ->
  (In (flag kind t) (map (flag kind) (filter p table)) <-> p t = true).
Proof.
  intros Hnd Ht. rewrite in_map_iff. split.
  - intros (u & Hflag & Hu). apply filter_In in Hu. destruct Hu as [Hu Hp].
    assert (u = t) as ->; [| exact Hp].
    apply (NoDup_map_eq transaction_id table); try assumption.
    unfold flag in Hflag. now inversion Hflag.
  - intros Hp. exists t. split; [reflexivity |].
    apply filter_In. now split.
Qed.

(** **** The list of countries in the query text *)

Lemma string_app_assoc (a b c : string) : ((a ++ b) ++ c = a ++ b ++ c)%string.
Proof.
  induction a as [| x a IH]; simpl; [reflexivity | now rewrite IH].
Qed.

Lemma string_app_nil (a : string) : (a ++ "")%string = a.
Proof.
  induction a as [| x a IH]; simpl; [reflexivity | now rewrite IH].
Qed.

Lemma plain_head (c : ascii) (name : string) :
  plain (String c name) = true ->
  is_apostrophe c = false /\ is_nul c = false /\ plain name = true.
Proof.
  unfold plain. simpl. rewrite andb_true_iff, negb_true_iff, orb_false_iff.
  tauto.
Qed.

Lemma scan_inside (name acc rest : string) (done : list string) :
  plain name = true ->
  scan (Literal acc) done (name ++ rest)
  = scan (Literal (acc ++ name)) done rest.
Proof.
  revert acc. induction name as [| c name IH]; intros acc Hplain.
  - simpl. now rewrite string_app_nil.
  - apply plain_head in Hplain. destruct Hplain as (Hq & Hn & Hplain).
    cbn [append scan]. rewrite Hn, Hq, (IH _ Hplain).
    now rewrite string_app_assoc.
Qed.

Lemma scan_quoted (at_ : scanning) (name rest : string)
    (done : list string) :
  at_ = Start \/ at_ = Comma ->
  plain name = true ->
  scan at_ done (quoted name ++ rest) = scan (Apostrophe name) done rest.
Proof.
  intros Hat Hplain. unfold quoted.
  rewrite !string_app_assoc.
  change (("'" ++ name ++ "'" ++ rest)%string)
    with (String "'" (name ++ String "'" rest)).
  assert (scan at_ done (String "'" (name ++ String "'" rest))
          = scan (Literal "") done (name ++ String "'" rest)) as ->
    by (destruct Hat as [-> | ->]; reflexivity).
  now rewrite (scan_inside name "" _ done Hplain).
Qed.

Lemma scan_names (names : list string) (name : string) (at_ : scanning)
    (done : list string) :
  at_ = Start \/ at_ = Comma ->
  Forall (fun n => plain n = true) (name :: names) ->
  scan at_ done (String.concat "," (map quoted (name :: names)))
  = Ok (done ++ name :: names).
Proof.
  revert name at_ done.
  induction names as [| next names IH]; intros name at_ done Hat Hall;
    inversion Hall as [| ? ? Hname Hrest]; subst.
  - cbn [map String.concat].
    rewrite <- (string_app_nil (quoted name)).
    now rewrite (scan_quoted at_ name "" done Hat Hname).
  - change (String.concat "," (map quoted (name :: next :: names)))
      with ((quoted name
             ++ "," ++ String.concat "," (map quoted (next :: names)))%string).
    rewrite (scan_quoted at_ name _ done Hat Hname).
    change (("," ++ String.concat "," (map quoted (next :: names)))%string)
      with (String "," (String.concat "," (map quoted (next :: names)))).
    cbn [scan]. change (is_nul ",") with false.
    change (is_apostrophe ",") with false.
    change (is_blank ",") with false. change (Ascii.eqb "," ",") with true.
    cbv iota.
    rewrite (IH next Comma (done ++ [name]) (or_intror eq_refl) Hrest).
    now rewrite <- app_assoc.
Qed.

Lemma country_literals_plain (cfg : Config) :
  Forall (fun n => plain n = true) (HIGH_RISK_COUNTRIES cfg) ->
  country_literals cfg = Ok (HIGH_RISK_COUNTRIES cfg).
Proof.
  unfold country_literals, in_list_text.
  destruct (HIGH_RISK_COUNTRIES cfg) as [| name names]; intros Hall.
  - reflexivity.
  - apply (scan_names names name Start [] (or_introl eq_refl) Hall).
Qed.

(** X10.  When no name of [HIGH_RISK_COUNTRIES] holds an apostrophe (or
    a NUL), the query parses, and in a table with distinct ids a
    transaction is flagged 'High-Risk Country' exactly when its country
    is one of the names. *)
Theorem high_risk_countries_exact (cfg : Config) (table : list Txn)
    (t : Txn) :
  Forall (fun name => plain name = true) (HIGH_RISK_COUNTRIES cfg) ->
  NoDup (map transaction_id table) -> In t table ->
  exists flagged,
    high_risk_countries cfg table = Ok flagged /\
    (In (flag "High-Risk Country" t) flagged <->
     In (country t) (HIGH_RISK_COUNTRIES cfg)).
Proof.
  intros Hplain Hnd Ht. unfold high_risk_countries.
  rewrite (country_literals_plain cfg Hplain). cbn [bind].
  eexists. split; [reflexivity |].
  rewrite (flag_filter_iff _ _ table t Hnd Ht).
  apply mem_In. intros a b. apply String.eqb_eq.
Qed.

Lemma high_risk_countries_exact_witness :
  exists flagged,
    high_risk_countries config MoreSamples.ledger = Ok flagged /\
    (In (flag "High-Risk Country"
           (FiatSamples.txn 21 7 250 1000 "Iran" 3 true)) flagged <->
     In "Iran" (HIGH_RISK_COUNTRIES config)).
Proof.
  apply (high_risk_countries_exact config MoreSamples.ledger
           (FiatSamples.txn 21 7 250 1000 "Iran" 3 true)).
  - repeat constructor.
  - exact ledger_ids_distinct.
  - left. reflexivity.
Defined.

(** X31.  The names come back from the text of the query as they went
    in: when no name of [HIGH_RISK_COUNTRIES] holds an apostrophe (or a
    NUL), the list between the parentheses of [IN (...)] parses, and to
    the very names of the configuration, in their order; the empty list
    parses to nothing. *)
Theorem country_list_round_trip (cfg : Config) :
  Forall (fun name => plain name = true) (HIGH_RISK_COUNTRIES cfg) ->
  country_literals cfg = Ok (HIGH_RISK_COUNTRIES cfg).
Proof. exact (country_literals_plain cfg). Qed.

Lemma country_list_round_trip_witness :
  country_literals config = Ok (HIGH_RISK_COUNTRIES config).
Proof.
  apply (country_list_round_trip config).
  repeat constructor.
Defined.

(** X11.  [%] works on integers: in a table with distinct ids a
    transaction is flagged 'Round Amount' exactly when
    [ROUND_AMOUNT_MULTIPLE], cast to an integer, is not zero and
    divides the amount cast to an integer, that is, the amount without
    its fraction.  1000.50 is as round as 1000; with a multiple of zero
    the rule flags nothing. *)
Theorem round_amount_exact (cfg : Config) (table : list Txn) (t : Txn) :
  NoDup (map transaction_id table) -> In t table ->
  let multiple := cast_integer (inject_Z (ROUND_AMOUNT_MULTIPLE cfg)) in
  (In (flag "Round Amount" t) (round_amount cfg table) <->
   multiple <> 0 /\ (multiple | cast_integer (amount t))).
Proof.
  intros Hnd Ht multiple. unfold round_amount. fold multiple.
  rewrite (flag_filter_iff _ _ table t Hnd Ht).
  rewrite andb_true_iff, negb_true_iff, Z.eqb_neq, Z.eqb_eq.
  split; intros [Hm Hr]; (split; [exact Hm |]).
  - now apply Z.rem_divide.
  - now apply Z.rem_divide.
Qed.

Lemma round_amount_exact_witness :
  In (flag "Round Amount" MoreSamples.odd_cents)
     (round_amount config MoreSamples.till) <->
  cast_integer (inject_Z (ROUND_AMOUNT_MULTIPLE config)) <> 0 /\
  (cast_integer (inject_Z (ROUND_AMOUNT_MULTIPLE config))
   | cast_integer (amount MoreSamples.odd_cents)).
Proof.
  apply (round_amount_exact config MoreSamples.till MoreSamples.odd_cents).
  - repeat constructor; simpl; intuition discriminate.
  - left. reflexivity.
Defined.

Example odd_cents_are_round :
  amount MoreSamples.odd_cents == 2001 # 2 /\
  round_amount config MoreSamples.till
  = [flag "Round Amount" MoreSamples.odd_cents].
Proof. split; reflexivity. Qed.

(** X12.  The 'High Frequency' rule flags whole groups: a flagged
    transaction has more than [TRANSACTION_FREQUENCY_LIMIT] rows of its
    account on its day in the table, and every row of that account and
    day is flagged with it. *)
Theorem high_frequency_flags_whole_day (cfg : Config) (table : list Txn)
    (t u : Txn) :
  NoDup (map transaction_id table) -> In t table -> In u table ->
  account_id u = account_id t ->
  DATE (transaction_date u) = DATE (transaction_date t) ->
  In (flag "High Frequency" t) (high_frequency cfg table) ->
  TRANSACTION_FREQUENCY_LIMIT cfg
  < Z.of_nat (List.length
                (filter (fun x => (account_id x =? account_id t) &&
                                  (DATE (transaction_date x) =?
                                   DATE (transaction_date t)))
                        table)) /\
  In (flag "High Frequency" u) (high_frequency cfg table).
Proof.
  intros Hnd Ht Hu Hacc Hday Hflag. unfold high_frequency in *.
  set (sorted := sort_by partition_leb table) in *.
  pose proof (sort_by_perm partition_leb table) as Hperm.
  fold sorted in Hperm.
  assert (NoDup (map transaction_id sorted)) as Hnd'.
  { apply (Permutation_NoDup (l := map transaction_id table));
      [apply Permutation_map, Permutation_sym, Hperm | exact Hnd]. }
  apply (Permutation_in _ (Permutation_sym Hperm)) in Ht, Hu.
  apply (flag_filter_iff _ _ sorted t Hnd' Ht) in Hflag.
  apply Z.ltb_lt in Hflag. split; [exact Hflag |].
  apply (flag_filter_iff _ _ sorted u Hnd' Hu).
  apply Z.ltb_lt. rewrite Hacc, Hday. exact Hflag.
Qed.

Lemma high_frequency_flags_whole_day_witness :
  exists count,
    1 < Z.of_nat count /\
    In (flag "High Frequency"
          (FiatSamples.txn 23 7 125 90500 "France" 5 false))
       (high_frequency FiatSamples.two_a_day MoreSamples.ledger).
Proof.
  eexists.
  apply (high_frequency_flags_whole_day FiatSamples.two_a_day
           MoreSamples.ledger
           (FiatSamples.txn 22 7 3000 90000 "France" 3 false)
           (FiatSamples.txn 23 7 125 90500 "France" 5 false)).
  - exact ledger_ids_distinct.
  - right. left. reflexivity.
  - right. right. left. reflexivity.
  - reflexivity.
  - reflexivity.
  - vm_compute. left. reflexivity.
Defined.

Lemma NoDup_all_equal {A} (l : list A) (t : A) :
  NoDup l -> In t l -> (forall u, In u l -> u = t) -> List.length l = 1%nat.
Proof.
  intros Hnd Ht Hall. destruct l as [| a [| b l]].
  - contradiction.
  - reflexivity.
  - exfalso. inversion Hnd as [| ? ? Ha _]; subst. apply Ha.
    rewrite (Hall a (or_introl eq_refl)).
    rewrite <- (Hall b (or_intror (or_introl eq_refl))). now left.
Qed.

(** X13.  In a table with distinct ids, a transaction is flagged 'New
    Payee' exactly when no other row of the table has its account and
    its payee. *)
Theorem new_payees_exact (table : list Txn) (t : Txn) :
  NoDup (map transaction_id table) -> In t table ->
  (In (flag "New Payee" t) (new_payees table) <->
   forall u, In u table -> account_id u = account_id t ->
             payee_id u = payee_id t -> u = t).
Proof.
  intros Hnd Ht. unfold new_payees.
  rewrite (flag_filter_iff _ _ table t Hnd Ht).
  set (same := fun u => (account_id u =? account_id t) &&
                        (payee_id u =? payee_id t)).
  assert (In t (filter same table)) as Hself.
  { apply filter_In. split; [exact Ht |]. unfold same.
    now rewrite !Z.eqb_refl. }
  assert (NoDup (filter same table)) as Hnd'.
  { apply NoDup_filter. now apply NoDup_map_inv in Hnd. }
  rewrite Nat.eqb_eq. split.
  - intros Hone u Hu Hacc Hpay.
    assert (In u (filter same table)) as Hin.
    { apply filter_In. split; [exact Hu |]. unfold same.
      rewrite Hacc, Hpay. now rewrite !Z.eqb_refl. }
    destruct (filter same table) as [| a [| b l]]; simpl in Hone;
      try discriminate.
    destruct Hself as [<- | []]. destruct Hin as [<- | []]. reflexivity.
  - intros Hall. apply (NoDup_all_equal _ t Hnd' Hself).
    intros u Hu. apply filter_In in Hu. destruct Hu as [Hu Hsame].
    unfold same in Hsame. apply andb_true_iff in Hsame.
    destruct Hsame as [Hacc Hpay].
    apply Hall; [exact Hu | now apply Z.eqb_eq | now apply Z.eqb_eq].
Qed.

Lemma new_payees_exact_witness :
  In (flag "New Payee" (FiatSamples.txn 23 7 125 90500 "France" 5 false))
     (new_payees MoreSamples.ledger) <->
  (forall u, In u MoreSamples.ledger -> account_id u = 7 ->
             payee_id u = 5 ->
             u = FiatSamples.txn 23 7 125 90500 "France" 5 false).
Proof.
  apply (new_payees_exact MoreSamples.ledger
           (FiatSamples.txn 23 7 125 90500 "France" 5 false)).
  - exact ledger_ids_distinct.
  - right. right. left. reflexivity.
Defined.

End FiatRules.

(** *** What a fiat pass does to the tables *)

Section FiatTables.
Import Fiat.


Lemma monitor_idle (cfg : Config) (st : State) :
  unprocessed st = [] ->
  monitor_transactions cfg st
  = emit [LogInfo "No new transactions to process."] st.
Proof. intros Hnone. unfold monitor_transactions. now rewrite Hnone. Qed.

Lemma generate_alerts_parses (cfg : Config) (b : list Txn) (st : State) :
  is_ok (generate_alerts cfg b st) = is_ok (country_literals cfg).
Proof.
  unfold generate_alerts, high_risk_countries.
  destruct (country_literals cfg); reflexivity.
Qed.

(** The three ways a pass can go. *)
Lemma monitor_cases (cfg : Config) (st : State) :
  (unprocessed st = [] /\
   monitor_transactions cfg st
   = emit [LogInfo "No new transactions to process."] st) \/
  (unprocessed st <> [] /\ is_ok (country_literals cfg) = true /\
   exists rows,
     generate_alerts cfg (unprocessed st) st = Ok rows /\
     monitor_transactions cfg st
     = mark_transactions_processed (map transaction_id (unprocessed st))
         (fold_left
            (fun s row =>
               log_alert (alert_transaction_id row) (alert_type row) s)
            rows (emit (validate_transaction_data (unprocessed st)) st))) \/
  (unprocessed st <> [] /\ is_ok (country_literals cfg) = false /\
   monitor_transactions cfg st
   = emit [LogError "Error processing transactions"]
          (emit (validate_transaction_data (unprocessed st)) st)).
Proof.
  destruct (unprocessed st) as [| b bs] eqn:Hb.
  - left. split; [reflexivity |]. now apply monitor_idle.
  - right. rewrite <- Hb.
    assert (unprocessed st <> []) as Hne by (rewrite Hb; discriminate).
    pose proof (generate_alerts_parses cfg (unprocessed st) st) as Hparse.
    destruct (generate_alerts cfg (unprocessed st) st) as [rows | e] eqn:Hg.
    + left. split; [exact Hne |]. split; [now rewrite <- Hparse |].
      exists rows. split; [reflexivity |].
      now apply monitor_completes.
    + right. split; [exact Hne |]. split; [now rewrite <- Hparse |].
      now apply (monitor_gives_up cfg st e).
Qed.



Lemma monitor_alerts_grow (cfg : Config) (st : State) :
  exists more, alerts (monitor_transactions cfg st) = alerts st ++ more.
Proof.
  destruct (monitor_cases cfg st)
    as [[Hnone ->] | [(Hne & _ & rows & _ & ->) | (Hne & _ & ->)]].
  - exists []. simpl. now rewrite app_nil_r.
  - destruct (log_alerts_run rows
                (emit (validate_transaction_data (unprocessed st)) st))
      as (_ & Hal & _).
    eexists. cbn [mark_transactions_processed alerts]. rewrite Hal.
    reflexivity.
  - exists []. simpl. now rewrite app_nil_r.
Qed.


End FiatTables.






(** X32.  When the query of [generate_alerts] raises (as it does when a
    listed name has an apostrophe of its own and the text cannot be
    parsed), a fiat pass over a non-empty batch ends in the error line
    of its [except] clause: no alert is stored, no row is marked, and
    the batch is read again by the next pass. *)
Theorem fiat_pass_with_failing_query (cfg : Fiat.Config) (st : Fiat.State)
    (e : exn) :
  Fiat.unprocessed st <> [] ->
  Fiat.generate_alerts cfg (Fiat.unprocessed st) st = Raise e ->
  let st' := Fiat.monitor_transactions cfg st in
  Fiat.alerts st' = Fiat.alerts st /\
  Fiat.transactions st' = Fiat.transactions st /\
  Fiat.unprocessed st' = Fiat.unprocessed st /\
  Fiat.trace st'
  = Fiat.trace st
    ++ Fiat.validate_transaction_data (Fiat.unprocessed st)
    ++ [Fiat.LogError "Error processing transactions"].
Proof.
  intros Hne Hfail st'. subst st'.
  rewrite (monitor_gives_up cfg st e Hne Hfail).
  cbn. now rewrite <- app_assoc.
Qed.

Lemma fiat_pass_with_failing_query_witness :
  let st := FiatSamples.store MoreSamples.ledger [] in
  let st' := Fiat.monitor_transactions MoreSamples.with_apostrophe st in
  Fiat.alerts st' = Fiat.alerts st /\
  Fiat.transactions st' = Fiat.transactions st /\
  Fiat.unprocessed st' = Fiat.unprocessed st /\
  Fiat.trace st'
  = Fiat.trace st
    ++ Fiat.validate_transaction_data (Fiat.unprocessed st)
    ++ [Fiat.LogError "Error processing transactions"].
Proof.
  apply (fiat_pass_with_failing_query MoreSamples.with_apostrophe
           (FiatSamples.store MoreSamples.ledger []) DatabaseError).
  - vm_compute. discriminate.
  - vm_compute. reflexivity.
Defined.

(** *** The archiver, run again *)

Lemma filter_old_of_kept {T} (date : T -> Z) (c c' : Z) (l : list T) :
  c' <= c ->
  filter (fun t => date t <? c')
         (filter (fun t => negb (date t <? c)) l) = [].
Proof.
  intros Hle. induction l as [| t l IH]; simpl; [reflexivity |].
  destruct (date t <? c) eqn:Hold; simpl; [exact IH |].
  apply Z.ltb_ge in Hold.
  replace (date t <? c') with false by (symmetry; apply Z.ltb_ge; lia).
  exact IH.
Qed.

Lemma filter_kept_of_kept {T} (date : T -> Z) (c c' : Z) (l : list T) :
  c' <= c ->
  filter (fun t => negb (date t <? c'))
         (filter (fun t => negb (date t <? c)) l)
  = filter (fun t => negb (date t <? c)) l.
Proof.
  intros Hle. induction l as [| t l IH]; simpl; [reflexivity |].
  destruct (date t <? c) eqn:Hold; simpl; [exact IH |].
  apply Z.ltb_ge in Hold.
  replace (date t <? c') with false by (symmetry; apply Z.ltb_ge; lia).
  simpl. now rewrite IH.
Qed.

Lemma filter_split_perm {T} (p : T -> bool) (l : list T) :
  Permutation (filter (fun t => negb (p t)) l ++ filter p l) l.
Proof.
  induction l as [| t l IH]; simpl; [constructor |].
  destruct (p t); simpl.
  - apply Permutation_sym. apply Permutation_cons_app.
    now apply Permutation_sym.
  - now constructor.
Qed.

(** X17.  In either program, an archiver run followed by another at the
    same or an earlier clock moves nothing the second time: both tables
    are as the first run left them. *)
Theorem archiver_rerun_moves_nothing (now now' : Z) :
  now' <= now ->
  (forall cfg st,
      let once := Fiat.archive_old_transactions cfg now st in
      let twice := Fiat.archive_old_transactions cfg now' once in
      Fiat.transactions twice = Fiat.transactions once /\
      Fiat.transactions_archive twice = Fiat.transactions_archive once) /\
  (forall cfg st,
      let once := Crypto.archive_old_transactions cfg now st in
      let twice := Crypto.archive_old_transactions cfg now' once in
      Crypto.crypto_transactions twice = Crypto.crypto_transactions once /\
      Crypto.crypto_transactions_archive twice
      = Crypto.crypto_transactions_archive once).
Proof.
  intros Hle. split; intros cfg st once twice; subst once twice.
  - unfold Fiat.archive_old_transactions.
    destruct (Fiat.archive_exists st) eqn:Hex; simpl; rewrite ?Hex; simpl.
    + rewrite filter_kept_of_kept, filter_old_of_kept by lia.
      now rewrite app_nil_r.
    + split; reflexivity.
  - unfold Crypto.archive_old_transactions.
    destruct (Crypto.archive_exists st) eqn:Hex; simpl; rewrite ?Hex;
      simpl.
    + rewrite filter_kept_of_kept, filter_old_of_kept by lia.
      now rewrite app_nil_r.
    + split; reflexivity.
Qed.

Lemma archiver_rerun_moves_nothing_witness :
  Fiat.transactions
    (Fiat.archive_old_transactions Fiat.config 3000000
       (Fiat.archive_old_transactions Fiat.config 3000000
          (FiatSamples.store MoreSamples.ledger [])))
  = Fiat.transactions
      (Fiat.archive_old_transactions Fiat.config 3000000
         (FiatSamples.store MoreSamples.ledger [])) /\
  Fiat.transactions_archive
    (Fiat.archive_old_transactions Fiat.config 3000000
       (Fiat.archive_old_transactions Fiat.config 3000000
          (FiatSamples.store MoreSamples.ledger [])))
  = Fiat.transactions_archive
      (Fiat.archive_old_transactions Fiat.config 3000000
         (FiatSamples.store MoreSamples.ledger [])).
Proof.
  destruct (archiver_rerun_moves_nothing 3000000 3000000) as [Hfiat _].
  - lia.
  - apply (Hfiat Fiat.config (FiatSamples.store MoreSamples.ledger [])).
Defined.

(** X18.  In either program the archiver loses and duplicates nothing:
    the rows of the two tables together are the same before and after,
    and the alerts are not touched. *)
Theorem archiver_conserves_rows (now : Z) :
  (forall cfg st,
      let st' := Fiat.archive_old_transactions cfg now st in
      Permutation (Fiat.transactions st' ++ Fiat.transactions_archive st')
                  (Fiat.transactions st ++ Fiat.transactions_archive st) /\
      Fiat.alerts st' = Fiat.alerts st) /\
  (forall cfg st,
      let st' := Crypto.archive_old_transactions cfg now st in
      Permutation
        (Crypto.crypto_transactions st'
         ++ Crypto.crypto_transactions_archive st')
        (Crypto.crypto_transactions st
         ++ Crypto.crypto_transactions_archive st) /\
      Crypto.crypto_alerts st' = Crypto.crypto_alerts st).
Proof.
  assert (forall T (p : T -> bool) (l a : list T),
             Permutation (filter (fun t => negb (p t)) l ++ a ++ filter p l)
                         (l ++ a)) as Hperm.
  { intros T p l a.
    apply perm_trans
      with (filter (fun t => negb (p t)) l ++ filter p l ++ a).
    - apply Permutation_app_head, Permutation_app_comm.
    - rewrite app_assoc. apply Permutation_app_tail, filter_split_perm. }
  split; intros cfg st st'; subst st'.
  - unfold Fiat.archive_old_transactions.
    destruct (Fiat.archive_exists st); simpl;
      (split; [| reflexivity]); [apply Hperm | apply Permutation_refl].
  - unfold Crypto.archive_old_transactions.
    destruct (Crypto.archive_exists st); simpl;
      (split; [| reflexivity]); [apply Hperm | apply Permutation_refl].
Qed.

(** *** The fiat loop *)

Section FiatLoopFacts.
Import Fiat FiatLoop.

Lemma turn_alerts (cfg : Config) (now : Z) (st : State) :
  alerts (turn cfg now st) = alerts (monitor_transactions cfg st).
Proof.
  unfold turn, archive_old_transactions.
  destruct (archive_exists (monitor_transactions cfg st)); reflexivity.
Qed.






(** The same loop with a list the query cannot be parsed with: the
    pass marks nothing, and the archiver moves the unreviewed rows. *)
Example fiat_loop_archives_unreviewed_rows :
  map (fun t => (transaction_id t, processed t))
      (transactions_archive
         (run_monitoring_loop MoreSamples.with_apostrophe [(3000000, [])]
            (FiatSamples.store MoreSamples.ledger [])))
  = [(21, true); (22, false); (23, false)].
Proof. vm_compute. reflexivity. Qed.

(** X21.  The fiat loop only ever appends to [alerts]: after any number
    of turns the alerts of the start are still there, in place, in
    front of the new ones. *)
Theorem fiat_loop_keeps_alerts (cfg : Config) (turns : list (Z * list Txn))
    (st : State) :
  exists more,
    alerts (run_monitoring_loop cfg turns st) = alerts st ++ more.
Proof.
  revert st. induction turns as [| [now new] turns IH]; intros st.
  - exists []. simpl. now rewrite app_nil_r.
  - cbn [run_monitoring_loop].
    destruct (IH (arrive new (turn cfg now st))) as (more & ->).
    change (alerts (arrive new (turn cfg now st)))
      with (alerts (turn cfg now st)).
    rewrite turn_alerts.
    destruct (monitor_alerts_grow cfg st) as (first & ->).
    exists (first ++ more). now rewrite app_assoc.
Qed.

End FiatLoopFacts.

(** *** The crypto loop *)

Section CryptoLoopFacts.
Import Pandas Crypto CryptoLoop.


End CryptoLoopFacts.

(** *** The risk-list rule and the validator of the crypto tool *)

Section CryptoRules.
Import Pandas Crypto.

Lemma combine_map {A B C} (f : A -> B) (g : A -> C) (l : list A) :
  combine (map f l) (map g l) = map (fun x => (f x, g x)) l.
Proof.
  induction l as [| x l IH]; simpl; [reflexivity | now rewrite IH].
Qed.

Lemma flagged_high_risk_frame_of (cfg : Config) (l : list Txn) :
  flagged_high_risk cfg (frame_of l)
  = Ok (getitem_mask (frame_of l)
          (map (fun t =>
                  mem String.eqb (from_address t) (HIGH_RISK_ADDRESSES cfg)
                  || mem String.eqb (to_address t) (HIGH_RISK_ADDRESSES cfg))
               l)).
Proof.
  unfold flagged_high_risk, getitem, frame_of. simpl.
  rewrite (map_range_index (fun r => nth 1 r VNull)).
  rewrite (map_range_index (fun r => nth 2 r VNull)).
  rewrite !map_map. rewrite combine_map, map_map. reflexivity.
Qed.

Lemma masked_ids (p : Txn -> bool) (l : list Txn) :
  getitem (getitem_mask (frame_of l) (map p l)) "transaction_id"
  = Ok (map (fun t => VStr (transaction_id t)) (filter p l)).
Proof.
  unfold getitem, getitem_mask, frame_of. simpl.
  f_equal.
  now rewrite (select_range_index (fun r => nth 0 r VNull) txn_cells).
Qed.

End CryptoRules.

(** X23.  On a batch read from the store, whose ids are distinct, the
    risk-list rule returns a frame whose [transaction_id] column holds
    the id of a transaction of the batch exactly when its sender or its
    receiver is one of [HIGH_RISK_ADDRESSES]. *)
Theorem risk_list_flags_exactly (cfg : Crypto.Config)
    (batch : list Crypto.Txn) :
  NoDup (map Crypto.transaction_id batch) ->
  exists flagged ids,
    Crypto.flagged_high_risk cfg (Crypto.frame_of batch) = Ok flagged /\
    Pandas.getitem flagged "transaction_id" = Ok ids /\
    Forall (fun t =>
              In (VStr (Crypto.transaction_id t)) ids <->
              In (Crypto.from_address t) (Crypto.HIGH_RISK_ADDRESSES cfg) \/
              In (Crypto.to_address t) (Crypto.HIGH_RISK_ADDRESSES cfg))
           batch.
Proof.
  intros Hnd. eexists. eexists.
  split; [apply flagged_high_risk_frame_of |].
  split; [apply masked_ids |].
  apply Forall_forall. intros t Ht.
  rewrite <- !(mem_In String.eqb) by (intros a b; apply String.eqb_eq).
  rewrite <- orb_true_iff. rewrite in_map_iff. split.
  - intros (u & Hid & Hu). apply filter_In in Hu. destruct Hu as [Hu Hp].
    inversion Hid as [Hid'].
    now rewrite <- (NoDup_map_eq Crypto.transaction_id batch u t Hnd Hu Ht
                      Hid').
  - intros Hp. exists t. split; [reflexivity |].
    apply filter_In. now split.
Qed.

Lemma risk_list_flags_exactly_witness :
  exists flagged ids,
    Crypto.flagged_high_risk Crypto.config
      (Crypto.frame_of CryptoSamples.chain) = Ok flagged /\
    Pandas.getitem flagged "transaction_id" = Ok ids /\
    Forall (fun t =>
              In (VStr (Crypto.transaction_id t)) ids <->
              In (Crypto.from_address t)
                 (Crypto.HIGH_RISK_ADDRESSES Crypto.config) \/
              In (Crypto.to_address t)
                 (Crypto.HIGH_RISK_ADDRESSES Crypto.config))
           CryptoSamples.chain.
Proof.
  apply (risk_list_flags_exactly Crypto.config CryptoSamples.chain).
  vm_compute.
  repeat (constructor; [intros H; repeat destruct H as [H | H];
                        try discriminate H; try contradiction |]).
  constructor.
Defined.

Section CryptoValidator.
Import Pandas Crypto.

Lemma validate_row_cells (c0 c1 c2 c3 c4 c5 c6 c7 : value) (st : State) :
  c3 = VNull \/ (exists z, c3 = VNum z) ->
  validate_row (combine txn_columns [c0; c1; c2; c3; c4; c5; c6; c7]) st
  = (Ok tt,
     {| crypto_transactions := crypto_transactions st;
        crypto_alerts := crypto_alerts st;
        crypto_transactions_archive := crypto_transactions_archive st;
        archive_exists := archive_exists st;
        insert_faults := insert_faults st;
        trace :=
          trace st
          ++ (if match c3 with VNum z => z <=? 0 | _ => false end
              then [LogWarning "Invalid transaction value" c0] else [])
          ++ (if isnull c5 || isnull c3 || isnull c1 || isnull c2
              then [LogWarning "Missing data in transaction ID" c0]
              else []) |}).
Proof.
  intros Hc3. unfold validate_row, bindM, lift.
  destruct Hc3 as [-> | [z ->]]; [| destruct (z <=? 0) eqn:Hz];
    destruct c5, c1, c2; cbn; rewrite ?Hz; unfold emit; cbn;
    rewrite <- ?app_assoc, ?app_nil_r; try reflexivity;
    destruct st; reflexivity.
Qed.

End CryptoValidator.

(** X24.  The crypto validator on a batch with the columns of
    [crypto_transactions] whose [value_usd] column is numeric (numbers
    and gaps, with a number somewhere): it never raises, touches no
    table and drops no row; it logs, row by row, an 'Invalid
    transaction value' warning when [value_usd] is zero or negative and
    a 'Missing data' warning when the date, the value or one of the two
    addresses is null, and nothing else. *)
Theorem crypto_validation_warns_only (df : Pandas.DataFrame)
    (st : Crypto.State) :
  Pandas.columns df = Crypto.txn_columns ->
  Forall (fun r =>
            List.length (snd r) = List.length Crypto.txn_columns /\
            (nth 3 (snd r) VNull = VNull \/
             exists z, nth 3 (snd r) VNull = VNum z))
         (Pandas.rows df) ->
  Exists (fun r => exists z, nth 3 (snd r) VNull = VNum z)
         (Pandas.rows df) ->
  let warnings (r : list value * list value) :=
    let cell i := nth i (snd r) VNull in
    (if match cell 3%nat with VNum z => z <=? 0 | _ => false end
     then [Crypto.LogWarning "Invalid transaction value" (cell 0%nat)]
     else []) ++
    (if Crypto.isnull (cell 5%nat) || Crypto.isnull (cell 3%nat) ||
        Crypto.isnull (cell 1%nat) || Crypto.isnull (cell 2%nat)
     then [Crypto.LogWarning "Missing data in transaction ID" (cell 0%nat)]
     else []) in
  let out := Crypto.validate_transaction_data df st in
  fst out = Ok tt /\
  Crypto.db (snd out) = Crypto.db st /\
  Crypto.trace (snd out)
  = Crypto.trace st ++ flat_map warnings (Pandas.rows df).
Proof.
  intros Hcols Hrows _ warnings out. subst out.
  unfold Crypto.validate_transaction_data, Pandas.iterrows.
  rewrite Hcols. clear Hcols.
  revert st Hrows.
  induction (Pandas.rows df) as [| r rs IH]; intros st Hrows.
  - cbn. repeat split. now rewrite app_nil_r.
  - inversion Hrows as [| ? ? [Hlen Hc3] Hrest]; subst.
    destruct r as [key cells]. cbn [snd] in *.
    destruct cells as [| c0 [| c1 [| c2 [| c3 [| c4 [| c5 [| c6 [| c7
                       [| c8 cells]]]]]]]]]; try discriminate Hlen.
    cbn [nth] in Hc3.
    cbn [map Crypto.for_each snd]. unfold Crypto.bindM.
    rewrite (validate_row_cells c0 c1 c2 c3 c4 c5 c6 c7 st Hc3).
    destruct (IH
                {| Crypto.crypto_transactions := Crypto.crypto_transactions st;
                   Crypto.crypto_alerts := Crypto.crypto_alerts st;
                   Crypto.crypto_transactions_archive :=
                     Crypto.crypto_transactions_archive st;
                   Crypto.archive_exists := Crypto.archive_exists st;
                   Crypto.insert_faults := Crypto.insert_faults st;
                   Crypto.trace :=
                     Crypto.trace st
                     ++ (if match c3 with VNum z => z <=? 0 | _ => false end
                         then [Crypto.LogWarning "Invalid transaction value"
                                 c0]
                         else [])
                     ++ (if Crypto.isnull c5 || Crypto.isnull c3 ||
                            Crypto.isnull c1 || Crypto.isnull c2
                         then [Crypto.LogWarning
                                 "Missing data in transaction ID" c0]
                         else []) |} Hrest)
      as (Hok & Hdb & Htr).
    split; [exact Hok |]. split; [exact Hdb |].
    rewrite Htr. cbn [Crypto.trace flat_map]. unfold warnings at 2.
    cbn [nth snd]. now rewrite <- !app_assoc.
Qed.

Lemma crypto_validation_warns_only_witness :
  let out := Crypto.validate_transaction_data MoreSamples.gappy
               (CryptoSamples.store [] []) in
  fst out = Ok tt /\
  Crypto.db (snd out) = Crypto.db (CryptoSamples.store [] []) /\
  Crypto.trace (snd out)
  = [Crypto.LogWarning "Invalid transaction value" (VStr "g1");
     Crypto.LogWarning "Missing data in transaction ID" (VStr "g1");
     Crypto.LogWarning "Missing data in transaction ID" (VStr "g2")].
Proof.
  apply (crypto_validation_warns_only MoreSamples.gappy
           (CryptoSamples.store [] [])).
  - reflexivity.
  - repeat (apply Forall_cons;
            [split; [reflexivity
                    | first [left; reflexivity
                            | right; eexists; reflexivity]] |]).
    apply Forall_nil.
  - apply Exists_cons_hd. eexists. reflexivity.
Defined.

Lemma filter_none {A} (p : A -> bool) (l : list A) :
  (forall x, In x l -> p x = false) -> filter p l = [].
Proof.
  induction l as [| x l IH]; simpl; intros Hall; [reflexivity |].
  rewrite (Hall x (or_introl eq_refl)). apply IH.
  intros y Hy. apply Hall. now right.
Qed.

(** *** The SAR generator *)

Section DocGenFacts.
Import Pandas DocGen.

Lemma row_getitem_raise (r : Row) (c : string) (e : exn) :
  row_getitem r c = Raise e -> e = KeyError c.
Proof.
  induction r as [| [c' v] r IH]; simpl.
  - intros H. now inversion H.
  - destruct (String.eqb c c'); [discriminate | exact IH].
Qed.

Lemma Series_get_present (alert : Row) (key : string) :
  Series_get alert key VNull <> VNull <->
  exists v, row_getitem alert key = Ok v /\ v <> VNull.
Proof.
  unfold Series_get. destruct (row_getitem alert key) as [v | e].
  - split.
    + intros Hv. now exists v.
    + intros (w & Hw & Hnn). now inversion Hw; subst.
  - split.
    + intros H. now contradiction H.
    + intros (w & Hw & _). discriminate.
Qed.

Lemma isnull_false (v : value) : isnull v = false <-> v <> VNull.
Proof.
  unfold isnull. split.
  - intros H ->. discriminate.
  - intros H. destruct v; try reflexivity. now contradiction H.
Qed.

(** X27.  [validate_alert] accepts an alert exactly when its
    [transaction_id], [alert_id] and [alert_type] are all present and
    not null, and then logs nothing.  Otherwise it logs one warning
    naming the missing fields, for which it reads [alert_id]: on a row
    without that label it raises [KeyError] instead of returning. *)
Theorem validate_alert_exact (alert : Row) :
  let complete :=
    forall field, In field required_fields ->
                  exists v, row_getitem alert field = Ok v /\ v <> VNull in
  (complete -> validate_alert alert = Ok (true, [])) /\
  (~ complete ->
   match row_getitem alert "alert_id" with
   | Ok alert_id =>
       exists missing,
         missing <> [] /\
         validate_alert alert = Ok (false, [LogWarning alert_id missing])
   | Raise _ => validate_alert alert = Raise (KeyError "alert_id")
   end).
Proof.
  intros complete. unfold validate_alert.
  set (missing := filter _ required_fields).
  assert (missing = [] <-> complete) as Hiff.
  { subst missing complete. split.
    - intros Hnone field Hfield. apply Series_get_present.
      apply isnull_false.
      destruct (isnull (Series_get alert field VNull)) eqn:Hnull;
        [| reflexivity].
      assert (In field
                (filter (fun f => isnull (Series_get alert f VNull))
                        required_fields)) as Hin
        by (apply filter_In; now split).
      rewrite Hnone in Hin. contradiction.
    - intros Hall. apply filter_none. intros field Hfield.
      apply isnull_false, Series_get_present. now apply Hall. }
  split.
  - intros Hc. apply Hiff in Hc. now rewrite Hc.
  - intros Hnot.
    destruct missing as [| m ms] eqn:Hm.
    + contradiction Hnot. now apply Hiff.
    + destruct (row_getitem alert "alert_id") as [aid | e] eqn:Hid.
      * exists (m :: ms). split; [discriminate | reflexivity].
      * simpl. now rewrite (row_getitem_raise _ _ _ Hid).
Qed.

Lemma validate_alert_true (alert : Row) (logged : list event) :
  validate_alert alert = Ok (true, logged) ->
  logged = [] /\
  exists aid tid kind,
    row_getitem alert "alert_id" = Ok aid /\
    row_getitem alert "transaction_id" = Ok tid /\
    row_getitem alert "alert_type" = Ok kind.
Proof.
  intros Hv.
  assert (forall field, In field required_fields ->
                        exists v, row_getitem alert field = Ok v /\
                                  v <> VNull) as Hc.
  { intros field Hfield. apply Series_get_present, isnull_false.
    destruct (isnull (Series_get alert field VNull)) eqn:Hnull;
      [| reflexivity].
    exfalso. unfold validate_alert in Hv.
    assert (In field
              (filter (fun f => isnull (Series_get alert f VNull))
                      required_fields)) as Hin
      by (apply filter_In; now split).
    destruct (filter _ required_fields) as [| m ms]; [contradiction |].
    destruct (row_getitem alert "alert_id"); discriminate. }
  split.
  - unfold validate_alert in Hv.
    destruct (filter _ required_fields) as [| m ms].
    + now inversion Hv.
    + destruct (row_getitem alert "alert_id"); discriminate.
  - destruct (Hc "alert_id") as (aid & Ha & _); [simpl; tauto |].
    destruct (Hc "transaction_id") as (tid & Ht & _); [simpl; tauto |].
    destruct (Hc "alert_type") as (kind & Hk & _); [simpl; tauto |].
    now exists aid, tid, kind.
Qed.

Lemma validate_alert_exact_witness :
  validate_alert MoreSamples.complete_alert = Ok (true, []).
Proof.
  apply (proj1 (validate_alert_exact MoreSamples.complete_alert)).
  intros field [<- | [<- | [<- | []]]];
    (eexists; split; [reflexivity | discriminate]).
Defined.

Lemma valid_alerts_spec (alerts valid : list Row) (warnings : list event) :
  valid_alerts alerts = Ok (valid, warnings) ->
  forall alert,
    In alert valid <->
    In alert alerts /\ validate_alert alert = Ok (true, []).
Proof.
  revert valid warnings.
  induction alerts as [| a alerts IH]; simpl; intros valid warnings Hrun.
  - inversion Hrun; subst. intros alert. simpl. tauto.
  - destruct (validate_alert a) as [[ok logged] | e] eqn:Hv;
      [| discriminate].
    simpl in Hrun.
    destruct (valid_alerts alerts) as [[valid' warnings'] | e] eqn:Hrest;
      [| discriminate].
    simpl in Hrun. inversion Hrun; subst. clear Hrun.
    specialize (IH valid' warnings' eq_refl).
    intros alert. destruct ok; simpl.
    + destruct (validate_alert_true a logged Hv) as [-> _].
      rewrite IH. split.
      * intros [<- | [Hin Hok]]; [split; [now left | exact Hv] |].
        split; [now right | exact Hok].
      * intros [[<- | Hin] Hok]; [now left | right; now split].
    + rewrite IH. split.
      * intros [Hin Hok]. split; [now right | exact Hok].
      * intros [[<- | Hin] Hok]; [congruence | now split].
Qed.

Section Rendering.
Variable renders : ReportData -> bool.
Variable clock : Row -> Z.

Lemma generate_sar_from_valid (alert : Row) :
  validate_alert alert = Ok (true, []) ->
  exists report_data,
    prepare_report_data (clock alert) alert = Ok report_data /\
    generate_sar_from_alert renders clock alert
    = Ok (generate_sar renders report_data).
Proof.
  intros Hv. destruct (validate_alert_true alert [] Hv)
    as (_ & aid & tid & kind & Ha & Ht & Hk).
  unfold generate_sar_from_alert. rewrite Hv. simpl.
  unfold prepare_report_data. rewrite Ha, Ht, Hk. simpl.
  eexists. split; [reflexivity |].
  destruct (generate_sar renders _) as [logged files]. reflexivity.
Qed.

Lemma pool_map_valid (alerts : list Row) :
  (forall alert, In alert alerts -> validate_alert alert = Ok (true, [])) ->
  exists logged written,
    pool_map renders clock alerts = Ok (logged, written) /\
    forall rd,
      In rd written <->
      exists alert,
        In alert alerts /\
        prepare_report_data (clock alert) alert = Ok rd /\
        renders rd = true.
Proof.
  induction alerts as [| a alerts IH]; intros Hall.
  - exists [], []. split; [reflexivity |].
    intros rd. split; [intros [] | intros (alert & [] & _)].
  - destruct (generate_sar_from_valid a (Hall a (or_introl eq_refl)))
      as (rd0 & Hprep & Hgen).
    destruct IH as (logged & written & Hrest & Hspec).
    { intros alert Hin. apply Hall. now right. }
    cbn [pool_map]. rewrite Hgen, Hrest. cbn [bind].
    eexists. eexists. split; [reflexivity |].
    intros rd. unfold generate_sar. rewrite in_app_iff, Hspec.
    destruct (renders rd0) eqn:Hr0; simpl; split.
    + intros [[<- | []] | (alert & Hin & Hp & Hr)].
      * exists a. repeat split; [now left | exact Hprep | exact Hr0].
      * exists alert. repeat split; [now right | exact Hp | exact Hr].
    + intros (alert & [<- | Hin] & Hp & Hr).
      * left. left. congruence.
      * right. now exists alert.
    + intros [[] | (alert & Hin & Hp & Hr)].
      exists alert. repeat split; [now right | exact Hp | exact Hr].
    + intros (alert & [<- | Hin] & Hp & Hr).
      * rewrite Hprep in Hp. inversion Hp; subst. congruence.
      * right. now exists alert.
Qed.

End Rendering.

End DocGenFacts.

(** X28.  When no alert validates (the table is empty, every row lacks
    a required field, or the database could not be read and the empty
    frame stands in), [generate_reports] does not return: it asks
    [Pool] for zero processes, which raises [ValueError], after the
    load message and the warnings have been logged. *)
Theorem generate_reports_without_valid_alert
    (renders : DocGen.ReportData -> bool) (clock : Pandas.Row -> Z)
    (cpu_count : Z) (db : option Pandas.DataFrame)
    (warnings : list DocGen.event) :
  DocGen.valid_alerts (Pandas.iterrows (fst (DocGen.load_alerts db)))
  = Ok ([], warnings) ->
  DocGen.generate_reports renders clock cpu_count db
  = (snd (DocGen.load_alerts db) ++ warnings, Raise ValueError).
Proof.
  intros Hnone. unfold DocGen.generate_reports. rewrite Hnone.
  replace (Z.min cpu_count (Z.of_nat (List.length (@nil Pandas.Row))) <? 1)
    with true; [reflexivity |].
  symmetry. apply Z.ltb_lt. simpl. lia.
Qed.

Lemma generate_reports_without_valid_alert_witness :
  DocGen.generate_reports (fun _ => true) (fun _ => 0) 8 None
  = (snd (DocGen.load_alerts None) ++ [], Raise ValueError).
Proof.
  apply (generate_reports_without_valid_alert
           (fun _ => true) (fun _ => 0) 8 None []).
  reflexivity.
Defined.

(** X29.  With at least one processor and at least one alert that
    validates, [generate_reports] returns normally: no worker raises,
    because a validated alert has every label [prepare_report_data]
    reads. *)
Theorem generate_reports_returns
    (renders : DocGen.ReportData -> bool) (clock : Pandas.Row -> Z)
    (cpu_count : Z) (df : Pandas.DataFrame)
    (valid : list Pandas.Row) (warnings : list DocGen.event) :
  1 <= cpu_count ->
  DocGen.valid_alerts (Pandas.iterrows df) = Ok (valid, warnings) ->
  valid <> [] ->
  exists written,
    snd (DocGen.generate_reports renders clock cpu_count (Some df))
    = Ok written.
Proof.
  intros Hcpu Hvalid Hne. unfold DocGen.generate_reports. simpl.
  rewrite Hvalid.
  replace (Z.min cpu_count (Z.of_nat (List.length valid)) <? 1) with false.
  - destruct (pool_map_valid renders clock valid)
      as (logged & written & Hpool & _).
    { intros alert Hin.
      now apply (valid_alerts_spec _ _ _ Hvalid alert). }
    rewrite Hpool. now exists written.
  - symmetry. apply Z.ltb_ge.
    destruct valid as [| a l]; [contradiction |]. simpl List.length. lia.
Qed.

Lemma generate_reports_returns_witness :
  exists written,
    snd (DocGen.generate_reports (fun _ => true) (fun _ => 7000) 4
           (Some MoreSamples.alerts_frame)) = Ok written.
Proof.
  eapply (generate_reports_returns
            (fun _ => true) (fun _ => 7000) 4 MoreSamples.alerts_frame).
  - lia.
  - vm_compute. reflexivity.
  - discriminate.
Defined.

(** X30.  When [generate_reports] returns, the SARs it wrote are those
    of the alerts that validate and whose rendering went through, each
    prepared from its alert; an alert that fails validation, or whose
    rendering fails, gets none. *)
Theorem generate_reports_writes_valid_alerts
    (renders : DocGen.ReportData -> bool) (clock : Pandas.Row -> Z)
    (cpu_count : Z) (df : Pandas.DataFrame)
    (written : list DocGen.ReportData) :
  snd (DocGen.generate_reports renders clock cpu_count (Some df))
  = Ok written ->
  forall rd,
    In rd written <->
    exists alert,
      In alert (Pandas.iterrows df) /\
      DocGen.validate_alert alert = Ok (true, []) /\
      DocGen.prepare_report_data (clock alert) alert = Ok rd /\
      renders rd = true.
Proof.
  unfold DocGen.generate_reports. simpl.
  destruct (DocGen.valid_alerts (Pandas.iterrows df))
    as [[valid warnings] | e] eqn:Hvalid; [| discriminate].
  destruct (Z.min cpu_count (Z.of_nat (List.length valid)) <? 1);
    [discriminate |].
  pose proof (valid_alerts_spec _ _ _ Hvalid) as Hspec.
  destruct (pool_map_valid renders clock valid)
    as (logged & written' & Hpool & Hwritten).
  { intros alert Hin. now apply Hspec. }
  rewrite Hpool. simpl. intros Hout. inversion Hout; subst. clear Hout.
  intros rd. rewrite Hwritten. split.
  - intros (alert & Hin & Hp & Hr). exists alert.
    apply Hspec in Hin. destruct Hin as [Hin Hok]. now repeat split.
  - intros (alert & Hin & Hok & Hp & Hr). exists alert.
    repeat split; [| exact Hp | exact Hr]. apply Hspec. now split.
Qed.

Lemma generate_reports_writes_valid_alerts_witness :
  exists written,
    snd (DocGen.generate_reports (fun _ => true) (fun _ => 7000) 4
           (Some MoreSamples.alerts_frame)) = Ok written /\
    (forall rd,
        In rd written <->
        exists alert,
          In alert (Pandas.iterrows MoreSamples.alerts_frame) /\
          DocGen.validate_alert alert = Ok (true, []) /\
          DocGen.prepare_report_data 7000 alert = Ok rd /\
          true = true).
Proof.
  eexists. split.
  - vm_compute. reflexivity.
  - apply (generate_reports_writes_valid_alerts
             (fun _ => true) (fun _ => 7000) 4 MoreSamples.alerts_frame).
    vm_compute. reflexivity.
Defined.
